(** * marbles-chaincode: the SmartPay / Payment chaincodes

    A shallow embedding of [hyperledger/part5/part5_riseHackathonChainCode.go].
    The source text holds two Go files of package [main]:

    - the first (lines 1-453) defines [Init], [Invoke], [Query], [read],
      [Delete], [Write], [JsonWrite] and [initSmartPay];
    - the second (lines 454-801) defines the same [Init], [Query], [read],
      [Delete] and [Write], its own [Invoke], [NewEcrire] and [initPayment].

    Both are embedded: the functions whose text is the same in the two files
    once, the others in the modules [SmartPay] and [Payment].

    Go library code the chaincode calls is modelled beside it: [strconv.Atoi]
    and [strconv.Itoa] exactly, [encoding/json] by a parser to a value tree
    and decoders for the three target types, the shim's [ChaincodeStub] as a
    key-value ledger whose calls may fail.  [strconv.ParseFloat],
    [strconv.FormatFloat] and [strings.ToLower] are operations of the class
    [GoLib]: every theorem holds for all implementations of them. *)

From Stdlib Require Import ZArith Ascii String DecimalString.
From stdpp Require Import base option list strings gmap.

Set Warnings "-register-all".
Local Open Scope Z_scope.

(** ** Go strings *)

(** The double quote, which a Rocq literal cannot hold undoubled. *)
Definition dquote : ascii := "034"%char.

(** Go's raw string literals of the source are full of double quotes.  They
    are written here with a single quote in the place of each double quote
    and passed through [raw]: [raw "{'amount': "] is the Go literal
    [`{"amount": `].  No literal of the source holds a single quote. *)
Fixpoint raw (s : string) : string :=
  match s with
  | EmptyString => EmptyString
  | String c s' => String (if Ascii.eqb c "'" then dquote else c) (raw s')
  end.

(** [len]: the number of bytes of a string, of elements of a slice. *)
Class Len (A : Type) := len : A -> Z.
#[global] Instance string_len : Len string := fun s => Z.of_nat (String.length s).
#[global] Instance list_len {A : Type} : Len (list A) := fun l => Z.of_nat (length l).

(** A slice of strings: [None] is the nil slice, which [json.Marshal] tells
    from an empty one. *)
Definition strings : Type := option (list string).

(** [append(s, x)]. *)
Definition append (s : strings) (x : string) : strings :=
  match s with
  | None => Some [x]
  | Some l => Some (l ++ [x])
  end.

(** ** strconv: integers

    Go's [int] is taken to be 64 bits wide, as on every platform the fabric
    peer runs on. *)

Definition minInt : Z := - 2 ^ 63.
Definition maxInt : Z := 2 ^ 63 - 1.

Definition isDigit (c : ascii) : bool :=
  (48 <=? Z.of_N (N_of_ascii c)) && (Z.of_N (N_of_ascii c) <=? 57).

Definition digitVal (c : ascii) : Z := Z.of_N (N_of_ascii c) - 48.

Fixpoint parseDigits (acc : Z) (s : string) : option Z :=
  match s with
  | EmptyString => Some acc
  | String c s' =>
      if isDigit c then parseDigits (10 * acc + digitVal c) s' else None
  end.

(** [strconv.Atoi]: an optional sign, then one or more decimal digits and
    nothing else; the value must fit an [int].  [None] stands for a non-nil
    [err]. *)
Definition Atoi (s : string) : option Z :=
  let '(neg, body) :=
    match s with
    | String "-" r => (true, r)
    | String "+" r => (false, r)
    | _ => (false, s)
    end in
  match body with
  | EmptyString => None
  | _ =>
      match parseDigits 0 body with
      | Some n =>
          let v := if neg then - n else n in
          if (minInt <=? v) && (v <=? maxInt) then Some v else None
      | None => None
      end
  end.

(** [strconv.Itoa]. *)
Definition Itoa (n : Z) : string := NilZero.string_of_int (Z.to_int n).

(** ** The library operations left abstract

    [float64] with [strconv.ParseFloat(s, 64)] ([None] for a non-nil [err])
    and [strconv.FormatFloat(f, 'f', -1, 64)], and [strings.ToLower], which
    maps every Unicode letter. *)
Class GoLib := {
  float64 : Type;
  float64_zero : float64;
  ParseFloat : string -> option float64;
  FormatFloat : float64 -> string;
  ToLower : string -> string
}.

(** ** encoding/json *)

Module JSON.

(** A JSON text as [json.Unmarshal] reads it.  A number keeps its literal:
    the decoder converts it for the type of the field it lands in. *)
Inductive json : Type :=
| JNull
| JBool (b : bool)
| JNumber (lit : string)
| JString (s : string)
| JArray (elems : list json)
| JObject (members : list (string * json)).

Definition isSpace (c : ascii) : bool :=
  Ascii.eqb c " " || Ascii.eqb c "009" || Ascii.eqb c "010" || Ascii.eqb c "013".

Fixpoint skipSpace (s : string) : string :=
  match s with
  | String c s' => if isSpace c then skipSpace s' else s
  | EmptyString => s
  end.

(** *** Strings *)

(** What a string literal is made of: a byte taken as it stands, or the
    UTF-16 code unit of a [\uXXXX] escape. *)
Inductive unit16 : Type :=
| UByte (c : ascii)
| UEscape (u : N).

Definition hexVal (c : ascii) : option N :=
  let n := N_of_ascii c in
  if (48 <=? n)%N && (n <=? 57)%N then Some (n - 48)%N
  else if (97 <=? n)%N && (n <=? 102)%N then Some (n - 87)%N
  else if (65 <=? n)%N && (n <=? 70)%N then Some (n - 55)%N
  else None.

Definition hex4 (a b c d : ascii) : option N :=
  match hexVal a, hexVal b, hexVal c, hexVal d with
  | Some x, Some y, Some z, Some w => Some (((x * 16 + y) * 16 + z) * 16 + w)%N
  | _, _, _, _ => None
  end.

(** The byte a one-letter escape stands for. *)
Definition simpleEscape (c : ascii) : option ascii :=
  if Ascii.eqb c dquote then Some dquote
  else if Ascii.eqb c "092" then Some "092"%char
  else if Ascii.eqb c "/" then Some "/"%char
  else if Ascii.eqb c "b" then Some "008"%char
  else if Ascii.eqb c "f" then Some "012"%char
  else if Ascii.eqb c "n" then Some "010"%char
  else if Ascii.eqb c "r" then Some "013"%char
  else if Ascii.eqb c "t" then Some "009"%char
  else None.

(** The scanner inside a string literal, after its opening quote: the units
    up to the closing quote, and the text after it.  A control character, an
    unknown escape or the end of the text is a syntax error. *)
Fixpoint scanString (s : string) : option (list unit16 * string) :=
  match s with
  | EmptyString => None
  | String c rest =>
      if Ascii.eqb c dquote then Some ([], rest)
      else if Ascii.eqb c "092" then
        match rest with
        | String "u" (String h1 (String h2 (String h3 (String h4 rest')))) =>
            match hex4 h1 h2 h3 h4, scanString rest' with
            | Some u, Some (us, r) => Some (UEscape u :: us, r)
            | _, _ => None
            end
        | String e rest' =>
            match simpleEscape e, scanString rest' with
            | Some b, Some (us, r) => Some (UByte b :: us, r)
            | _, _ => None
            end
        | EmptyString => None
        end
      else if (N_of_ascii c <? 32)%N then None
      else
        match scanString rest with
        | Some (us, r) => Some (UByte c :: us, r)
        | None => None
        end
  end.

(** [utf8.EncodeRune] for a code point below 0x110000. *)
Definition encodeRune (r : N) : list ascii :=
  let byte n := ascii_of_N n in
  if (r <? 128)%N then [byte r]
  else if (r <? 2048)%N then
    [byte (192 + r / 64); byte (128 + r mod 64)]%N
  else if (r <? 65536)%N then
    [byte (224 + r / 4096); byte (128 + (r / 64) mod 64); byte (128 + r mod 64)]%N
  else
    [byte (240 + r / 262144); byte (128 + (r / 4096) mod 64);
     byte (128 + (r / 64) mod 64); byte (128 + r mod 64)]%N.

Definition replacementChar : N := 65533.

Definition isHighSurrogate (u : N) : bool := (55296 <=? u)%N && (u <? 56320)%N.
Definition isLowSurrogate (u : N) : bool := (56320 <=? u)%N && (u <? 57344)%N.

(** [unquote]: escapes become UTF-8; a high surrogate followed by a low one
    is one code point, a surrogate on its own the replacement character. *)
Fixpoint unquoteUnits (us : list unit16) : list ascii :=
  match us with
  | [] => []
  | UByte c :: us' => c :: unquoteUnits us'
  | UEscape u :: us' =>
      if isHighSurrogate u then
        match us' with
        | UEscape v :: us'' =>
            if isLowSurrogate v then
              encodeRune (65536 + (u - 55296) * 1024 + (v - 56320))%N
                ++ unquoteUnits us''
            else encodeRune replacementChar ++ unquoteUnits us'
        | _ => encodeRune replacementChar ++ unquoteUnits us'
        end
      else if isLowSurrogate u then encodeRune replacementChar ++ unquoteUnits us'
      else encodeRune u ++ unquoteUnits us'
  end.

Definition unquote (us : list unit16) : string :=
  string_of_list_ascii (unquoteUnits us).

(** *** Numbers and literals *)

Fixpoint spanDigits (s : string) : string * string :=
  match s with
  | String c s' =>
      if isDigit c then let '(d, r) := spanDigits s' in (String c d, r)
      else (EmptyString, s)
  | EmptyString => (EmptyString, s)
  end.

(** The integer part: [0], or a digit from 1 to 9 and more digits. *)
Definition scanInt (s : string) : option (string * string) :=
  match s with
  | String "0" r => Some ("0"%string, r)
  | String c r =>
      if isDigit c then let '(d, r') := spanDigits r in Some (String c d, r')
      else None
  | EmptyString => None
  end.

Definition scanFrac (s : string) : option (string * string) :=
  match s with
  | String "." r =>
      match spanDigits r with
      | (EmptyString, _) => None
      | (d, r') => Some (String "." d, r')
      end
  | _ => Some (EmptyString, s)
  end.

Definition scanExp (s : string) : option (string * string) :=
  match s with
  | String e r =>
      if Ascii.eqb e "e" || Ascii.eqb e "E" then
        let '(sign, r1) :=
          match r with
          | String "+" r1 => ("+"%string, r1)
          | String "-" r1 => ("-"%string, r1)
          | _ => (EmptyString, r)
          end in
        match spanDigits r1 with
        | (EmptyString, _) => None
        | (d, r') => Some (String e (sign +:+ d), r')
        end
      else Some (EmptyString, s)
  | EmptyString => Some (EmptyString, s)
  end.

(** A number literal and the text after it. *)
Definition scanNumber (s : string) : option (string * string) :=
  let '(sign, s1) :=
    match s with
    | String "-" r => ("-"%string, r)
    | _ => (EmptyString, s)
    end in
  match scanInt s1 with
  | Some (i, s2) =>
      match scanFrac s2 with
      | Some (f, s3) =>
          match scanExp s3 with
          | Some (e, s4) => Some (sign +:+ i +:+ f +:+ e, s4)
          | None => None
          end
      | None => None
      end
  | None => None
  end.

(** [s] without the prefix [p], when it starts with it. *)
Fixpoint stripPrefix (p s : string) : option string :=
  match p, s with
  | EmptyString, _ => Some s
  | String a p', String b s' => if Ascii.eqb a b then stripPrefix p' s' else None
  | String _ _, EmptyString => None
  end.

(** *** Values *)

(** One value at the head of [s] (leading blanks skipped) and the text after
    it; [None] is a syntax error.  [parseElems] and [parseMembers] read what
    follows an element of an array, a member of an object.  Every call but
    those on an element in head position is on a shorter text, so a fuel of
    twice the length of the text is never used up. *)
Fixpoint parseValue (fuel : nat) (s : string) : option (json * string) :=
  match fuel with
  | O => None
  | S fuel' =>
      match skipSpace s with
      | String c rest =>
          if Ascii.eqb c "{" then
            match skipSpace rest with
            | String "}" r => Some (JObject [], r)
            | _ =>
                match parseMembers fuel' rest with
                | Some (ms, r) => Some (JObject ms, r)
                | None => None
                end
            end
          else if Ascii.eqb c "[" then
            match skipSpace rest with
            | String "]" r => Some (JArray [], r)
            | _ =>
                match parseElems fuel' rest with
                | Some (es, r) => Some (JArray es, r)
                | None => None
                end
            end
          else if Ascii.eqb c dquote then
            match scanString rest with
            | Some (us, r) => Some (JString (unquote us), r)
            | None => None
            end
          else if Ascii.eqb c "t" then
            match stripPrefix "rue" rest with
            | Some r => Some (JBool true, r)
            | None => None
            end
          else if Ascii.eqb c "f" then
            match stripPrefix "alse" rest with
            | Some r => Some (JBool false, r)
            | None => None
            end
          else if Ascii.eqb c "n" then
            match stripPrefix "ull" rest with
            | Some r => Some (JNull, r)
            | None => None
            end
          else
            match scanNumber (String c rest) with
            | Some (lit, r) => Some (JNumber lit, r)
            | None => None
            end
      | EmptyString => None
      end
  end
with parseElems (fuel : nat) (s : string) : option (list json * string) :=
  match fuel with
  | O => None
  | S fuel' =>
      match parseValue fuel' s with
      | Some (v, r) =>
          match skipSpace r with
          | String "," r' =>
              match parseElems fuel' r' with
              | Some (vs, r'') => Some (v :: vs, r'')
              | None => None
              end
          | String "]" r' => Some ([v], r')
          | _ => None
          end
      | None => None
      end
  end
with parseMembers (fuel : nat) (s : string) : option (list (string * json) * string) :=
  match fuel with
  | O => None
  | S fuel' =>
      match skipSpace s with
      | String c r0 =>
          if Ascii.eqb c dquote then
            match scanString r0 with
            | Some (us, r1) =>
                match skipSpace r1 with
                | String ":" r2 =>
                    match parseValue fuel' r2 with
                    | Some (v, r3) =>
                        match skipSpace r3 with
                        | String "," r4 =>
                            match parseMembers fuel' r4 with
                            | Some (ms, r5) => Some ((unquote us, v) :: ms, r5)
                            | None => None
                            end
                        | String "}" r4 => Some ([(unquote us, v)], r4)
                        | _ => None
                        end
                    | None => None
                    end
                | _ => None
                end
            | None => None
            end
          else None
      | EmptyString => None
      end
  end.

(** The whole of [data] as one JSON text ([checkValid] and the decode that
    follows it): one value, blanks around it allowed, nothing after. *)
Definition parse (data : string) : option json :=
  match parseValue (2 * String.length data + 2) data with
  | Some (v, r) =>
      match skipSpace r with
      | EmptyString => Some v
      | _ => None
      end
  | None => None
  end.

(** *** Decoding into Go values

    Every [json.Unmarshal] of the source decodes into a variable that holds
    its zero value, and drops the error: the decoders below give the value of
    the variable afterwards.  A text with a syntax error leaves it untouched;
    a value of the wrong type for a field leaves that field untouched, and
    the decoding goes on. *)

(** A [string] field, an element of a [[]string]. *)
Definition decString (j : json) (cur : string) : string :=
  match j with
  | JString s => s
  | _ => cur
  end.

(** An [int] field: the literal goes through [strconv.ParseInt], which on a
    JSON number literal accepts what [Atoi] accepts. *)
Definition decInt (j : json) (cur : Z) : Z :=
  match j with
  | JNumber lit =>
      match Atoi lit with
      | Some n => n
      | None => cur
      end
  | _ => cur
  end.

(** A [float64] field: the literal goes through [strconv.ParseFloat]. *)
Definition decFloat `{GoLib} (j : json) (cur : float64) : float64 :=
  match j with
  | JNumber lit =>
      match ParseFloat lit with
      | Some f => f
      | None => cur
      end
  | _ => cur
  end.

(** [json.Unmarshal(data, &v)] for [var v []string]. *)
Definition UnmarshalStrings (data : string) : strings :=
  match parse data with
  | Some (JArray es) => Some (map (fun e => decString e EmptyString) es)
  | _ => None
  end.

Definition lowerByte (c : ascii) : ascii :=
  let n := N_of_ascii c in
  if (65 <=? n)%N && (n <=? 90)%N then ascii_of_N (n + 32) else c.

(** Equality of a key and a field name up to the case of ASCII letters.
    (Go also folds two non-ASCII letters to [k] and [s].) *)
Fixpoint equalFold (a b : string) : bool :=
  match a, b with
  | EmptyString, EmptyString => true
  | String x a', String y b' => Ascii.eqb (lowerByte x) (lowerByte y) && equalFold a' b'
  | _, _ => false
  end.

Fixpoint findIndex (p : string -> bool) (l : list string) (i : nat) : option nat :=
  match l with
  | [] => None
  | x :: l' => if p x then Some i else findIndex p l' (S i)
  end.

(** The field of a struct an object key names, by the fields' JSON names:
    the one that is equal to the key, or else the first that is equal to it
    up to case. *)
Definition fieldFor (names : list string) (key : string) : option nat :=
  match findIndex (String.eqb key) names 0 with
  | Some i => Some i
  | None => findIndex (equalFold key) names 0
  end.

(** *** Encoding a [[]string] *)

Definition hexDigit (n : N) : ascii :=
  if (n <? 10)%N then ascii_of_N (48 + n) else ascii_of_N (87 + n).

Definition backslash : ascii := "092"%char.

(** One byte inside a string as [json.Marshal] writes it: the quote and the
    backslash escaped, line feed, carriage return and tab by their letter,
    the other control characters and [<], [>], [&] as [\u00XX], the rest as
    it stands.  (Go also rewrites bytes that are not valid UTF-8.) *)
Definition escapeByte (c : ascii) : string :=
  let n := N_of_ascii c in
  if Ascii.eqb c dquote then String backslash (String dquote EmptyString)
  else if Ascii.eqb c backslash then String backslash (String backslash EmptyString)
  else if Ascii.eqb c "010" then String backslash "n"
  else if Ascii.eqb c "013" then String backslash "r"
  else if Ascii.eqb c "009" then String backslash "t"
  else if (n <? 32)%N || Ascii.eqb c "<" || Ascii.eqb c ">" || Ascii.eqb c "&" then
    String backslash
      (String "u" (String "0" (String "0"
         (String (hexDigit (n / 16)) (String (hexDigit (n mod 16)) EmptyString)))))
  else String c EmptyString.

Fixpoint escape (s : string) : string :=
  match s with
  | EmptyString => EmptyString
  | String c s' => escapeByte c +:+ escape s'
  end.

Definition quote (s : string) : string :=
  String dquote (escape s +:+ String dquote EmptyString).

(** [json.Marshal(v)] for [v []string]: [null] for the nil slice. *)
Definition MarshalStrings (v : strings) : string :=
  match v with
  | None => "null"%string
  | Some l => ("[" +:+ String.concat "," (map quote l) +:+ "]")%string
  end.

End JSON.

(** ** The shim: ChaincodeStub

    The ledger is a map from keys to values.  A [GetState] of a key that was
    never written gives no bytes and no error.  [faults] schedules the
    outcome of the calls to come, one entry a call: [Some e] makes the call
    fail with the error [e] and leaves the ledger as it is; when the schedule
    is used up every call succeeds. *)

Definition error : Type := string.

Record ChaincodeStub : Type := mkStub {
  ledger : gmap string string;
  faults : list (option error)
}.

(** What running a piece of chaincode ends in: its value, a returned error,
    or a run-time panic. *)
Inductive outcome (A : Type) : Type :=
| Return (a : A)
| Error (err : error)
| Panic (msg : string).
Arguments Return {A} a.
Arguments Error {A} err.
Arguments Panic {A} msg.

(** Chaincode runs against the stub and leaves it as its calls made it,
    also when it ends in an error. *)
Definition Tx (A : Type) : Type := ChaincodeStub -> ChaincodeStub * outcome A.

#[global] Instance Tx_ret : MRet Tx := fun A a stub => (stub, Return a).
#[global] Instance Tx_bind : MBind Tx := fun A B f m stub =>
  match m stub with
  | (stub', Return a) => f a stub'
  | (stub', Error e) => (stub', Error e)
  | (stub', Panic p) => (stub', Panic p)
  end.

#[global] Instance Tx_fmap : FMap Tx := fun A B f m => a ← m; mret (f a).

(** [return nil, errors.New(msg)] and [return nil, err]. *)
Definition fail {A : Type} (err : error) : Tx A := fun stub => (stub, Error err).

(** [if cond { return nil, errors.New(msg) }]. *)
Definition failIf (cond : bool) (err : error) : Tx unit :=
  if cond then fail err else mret tt.

(** [err != nil]. *)
Definition notNil (err : option error) : bool :=
  match err with
  | Some _ => true
  | None => false
  end.

(** [if err != nil { return nil, err }]. *)
Definition failWith (err : option error) : Tx unit :=
  match err with
  | Some e => fail e
  | None => mret tt
  end.

(** [args[i]]: out of range, the Go run time panics. *)
Definition index (args : list string) (i : nat) : Tx string := fun stub =>
  match args !! i with
  | Some a => (stub, Return a)
  | None => (stub, Panic "index out of range")
  end.

(** The next entry of the schedule. *)
Definition nextFault (stub : ChaincodeStub) : option error * ChaincodeStub :=
  match faults stub with
  | [] => (None, stub)
  | f :: fs => (f, mkStub (ledger stub) fs)
  end.

(** [stub.GetState(key)]: the bytes and the error. *)
Definition GetState (key : string) : Tx (string * option error) := fun stub =>
  match nextFault stub with
  | (Some e, stub') => (stub', Return (EmptyString, Some e))
  | (None, stub') => (stub', Return (default EmptyString (ledger stub' !! key), None))
  end.

(** [stub.PutState(key, value)]: the error. *)
Definition PutState (key value : string) : Tx (option error) := fun stub =>
  match nextFault stub with
  | (Some e, stub') => (stub', Return (Some e))
  | (None, stub') => (mkStub (<[key := value]> (ledger stub')) (faults stub'), Return None)
  end.

(** [stub.DelState(key)]: the error. *)
Definition DelState (key : string) : Tx (option error) := fun stub =>
  match nextFault stub with
  | (Some e, stub') => (stub', Return (Some e))
  | (None, stub') => (mkStub (delete key (ledger stub')) (faults stub'), Return None)
  end.

(** The nil [[]byte]. *)
Definition nilBytes : string := EmptyString.

(** ** The chaincode: what the two files share

    [fmt.Println] writes to the peer's log and is left out throughout. *)

Definition smartPayIndexStr : string := "_smartpayindex".
Definition paymentIndexStr : string := "_paymentindex".

(** [Init] (lines 91-123 and 544-576). *)
Definition Init (function : string) (args : list string) : Tx string :=
  failIf (negb (len args =? 1)) "Incorrect number of arguments. Expecting 1";;
  a0 ← index args 0;
  match Atoi a0 with
  | None => fail "Expecting integer value for asset holding"
  | Some Aval =>
      err ← PutState "abc" (Itoa Aval);
      failWith err;;
      let empty : strings := None in
      let jsonAsBytes := JSON.MarshalStrings empty in
      err ← PutState smartPayIndexStr jsonAsBytes;
      failWith err;;
      err ← PutState paymentIndexStr jsonAsBytes;
      failWith err;;
      mret nilBytes
  end.

(** [read] (lines 175-191 and 628-644). *)
Definition read (args : list string) : Tx string :=
  failIf (negb (len args =? 1))
    "Incorrect number of arguments. Expecting name of the var to query";;
  name ← index args 0;
  '(valAsbytes, err) ← GetState name;
  failIf (notNil err) (raw "{'Error':'Failed to get state for " +:+ name +:+ raw "'}");;
  mret valAsbytes.

(** The loop of [Delete] (lines 216-226 and 669-679) from its iteration [i],
    with [rest] the elements of [smartPayIndex] still to visit:
    [[
    for i, val := range smartPayIndex {
        if val == name {
            smartPayIndex = append(smartPayIndex[:i], smartPayIndex[i+1:]...)
            break
        }
    }
    ]] *)
Fixpoint removeLoop (smartPayIndex : list string) (name : string)
    (i : nat) (rest : list string) : list string :=
  match rest with
  | [] => smartPayIndex
  | val :: rest' =>
      if String.eqb val name then take i smartPayIndex ++ drop (S i) smartPayIndex
      else removeLoop smartPayIndex name (S i) rest'
  end.

(** The loop on a slice: over the nil slice it runs no iteration. *)
Definition removeFromIndex (smartPayIndex : strings) (name : string) : strings :=
  match smartPayIndex with
  | None => None
  | Some l => Some (removeLoop l name 0 l)
  end.

(** [Delete] (lines 196-230 and 649-683).  The error of the last [PutState]
    is assigned and never read. *)
Definition Delete (args : list string) : Tx string :=
  failIf (negb (len args =? 1)) "Incorrect number of arguments. Expecting 1";;
  name ← index args 0;
  err ← DelState name;
  failIf (notNil err) "Failed to delete state";;
  '(smartPayTransactionAsBytes, err) ← GetState smartPayIndexStr;
  failIf (notNil err) "Failed to get SmartPayTransaction index";;
  let smartPayIndex := JSON.UnmarshalStrings smartPayTransactionAsBytes in
  let smartPayIndex := removeFromIndex smartPayIndex name in
  let jsonAsBytes := JSON.MarshalStrings smartPayIndex in
  err ← PutState smartPayIndexStr jsonAsBytes;
  mret nilBytes.

(** [Write] (lines 235-251 and 688-704). *)
Definition Write (args : list string) : Tx string :=
  failIf (negb (len args =? 2))
    "Incorrect number of arguments. Expecting 2. name of the variable and value to set";;
  name ← index args 0;
  value ← index args 1;
  err ← PutState name value;
  failWith err;;
  mret nilBytes.

(** [Query] (lines 160-170 and 613-623). *)
Definition Query (function : string) (args : list string) : Tx string :=
  if String.eqb function "read" then read args
  else fail "Received unknown function query".

(** ** The first file: SmartPay transactions (lines 1-453) *)

Module SmartPay.
Section WithLib.
Context `{GoLib}.

(** The struct types (lines 40-76), each field with its JSON name. *)
Record PaymentTransaction : Type := mkPayment {
  PaymentTransID : string;      (* paymentTransID *)
  pDrawerID : string;           (* drawerID *)
  pPayeeID : string;            (* payeeID *)
  pAmount : float64;            (* amount *)
  pCurrency : string            (* currency *)
}.

Record RemittanceTransaction : Type := mkRemittance {
  RemittanceTransID : string;   (* remittanceTransID *)
  SourceID : string;            (* sourceID *)
  SourceCurrency : string;      (* sourceCurrency *)
  DestinationID : string;       (* destinationID *)
  DestinationCurrency : string; (* destinationCurrency *)
  rAmount : float64;            (* amount *)
  ExchangeRate : float64        (* ExchangeRate *)
}.

Record LendingTransacation : Type := mkLending {
  LendingTransID : string;      (* lendingTransID *)
  LendorID : string;            (* lendorID *)
  BorrowerID : string;          (* borrowerID *)
  LoanAmount : float64;         (* loanAmount *)
  lCurrency : string;           (* currency *)
  LoanRate : float64;           (* loanRate *)
  LoanReturnDate : string       (* loanReturnDate *)
}.

Record SmartPayTransaction : Type := mkSmartPay {
  SmartPayTransID : string;             (* smartPayTransID *)
  PaymentTrans : PaymentTransaction;    (* paymentTrans *)
  RemitTrans : RemittanceTransaction;   (* remitTrans *)
  LendTrans : LendingTransacation       (* lentTrans *)
}.

(** The zero values, [PaymentTransaction{}] and the like. *)
Definition zeroPayment : PaymentTransaction :=
  mkPayment EmptyString EmptyString EmptyString float64_zero EmptyString.
Definition zeroRemittance : RemittanceTransaction :=
  mkRemittance EmptyString EmptyString EmptyString EmptyString EmptyString
    float64_zero float64_zero.
Definition zeroLending : LendingTransacation :=
  mkLending EmptyString EmptyString EmptyString float64_zero EmptyString
    float64_zero EmptyString.
Definition zeroSmartPay : SmartPayTransaction :=
  mkSmartPay EmptyString zeroPayment zeroRemittance zeroLending.

(** One member of an object decoded into the struct, by the field its key
    names; a key that names no field is skipped. *)
Definition setPayment (r : PaymentTransaction) (m : string * JSON.json)
    : PaymentTransaction :=
  let '(k, v) := m in
  let '(mkPayment id dr pa am cu) := r in
  match JSON.fieldFor ["paymentTransID"; "drawerID"; "payeeID"; "amount"; "currency"]%string k with
  | Some 0%nat => mkPayment (JSON.decString v id) dr pa am cu
  | Some 1%nat => mkPayment id (JSON.decString v dr) pa am cu
  | Some 2%nat => mkPayment id dr (JSON.decString v pa) am cu
  | Some 3%nat => mkPayment id dr pa (JSON.decFloat v am) cu
  | Some 4%nat => mkPayment id dr pa am (JSON.decString v cu)
  | _ => r
  end.

Definition decPayment (j : JSON.json) (cur : PaymentTransaction) : PaymentTransaction :=
  match j with
  | JSON.JObject ms => fold_left setPayment ms cur
  | _ => cur
  end.

Definition setRemittance (r : RemittanceTransaction) (m : string * JSON.json)
    : RemittanceTransaction :=
  let '(k, v) := m in
  let '(mkRemittance id si sc di dc am ex) := r in
  match JSON.fieldFor ["remittanceTransID"; "sourceID"; "sourceCurrency"; "destinationID";
                       "destinationCurrency"; "amount"; "ExchangeRate"]%string k with
  | Some 0%nat => mkRemittance (JSON.decString v id) si sc di dc am ex
  | Some 1%nat => mkRemittance id (JSON.decString v si) sc di dc am ex
  | Some 2%nat => mkRemittance id si (JSON.decString v sc) di dc am ex
  | Some 3%nat => mkRemittance id si sc (JSON.decString v di) dc am ex
  | Some 4%nat => mkRemittance id si sc di (JSON.decString v dc) am ex
  | Some 5%nat => mkRemittance id si sc di dc (JSON.decFloat v am) ex
  | Some 6%nat => mkRemittance id si sc di dc am (JSON.decFloat v ex)
  | _ => r
  end.

Definition decRemittance (j : JSON.json) (cur : RemittanceTransaction)
    : RemittanceTransaction :=
  match j with
  | JSON.JObject ms => fold_left setRemittance ms cur
  | _ => cur
  end.

Definition setLending (r : LendingTransacation) (m : string * JSON.json)
    : LendingTransacation :=
  let '(k, v) := m in
  let '(mkLending id le bo am cu ra da) := r in
  match JSON.fieldFor ["lendingTransID"; "lendorID"; "borrowerID"; "loanAmount";
                       "currency"; "loanRate"; "loanReturnDate"]%string k with
  | Some 0%nat => mkLending (JSON.decString v id) le bo am cu ra da
  | Some 1%nat => mkLending id (JSON.decString v le) bo am cu ra da
  | Some 2%nat => mkLending id le (JSON.decString v bo) am cu ra da
  | Some 3%nat => mkLending id le bo (JSON.decFloat v am) cu ra da
  | Some 4%nat => mkLending id le bo am (JSON.decString v cu) ra da
  | Some 5%nat => mkLending id le bo am cu (JSON.decFloat v ra) da
  | Some 6%nat => mkLending id le bo am cu ra (JSON.decString v da)
  | _ => r
  end.

Definition decLending (j : JSON.json) (cur : LendingTransacation) : LendingTransacation :=
  match j with
  | JSON.JObject ms => fold_left setLending ms cur
  | _ => cur
  end.

Definition setSmartPay (r : SmartPayTransaction) (m : string * JSON.json)
    : SmartPayTransaction :=
  let '(k, v) := m in
  let '(mkSmartPay id p t l) := r in
  match JSON.fieldFor ["smartPayTransID"; "paymentTrans"; "remitTrans"; "lentTrans"]%string k with
  | Some 0%nat => mkSmartPay (JSON.decString v id) p t l
  | Some 1%nat => mkSmartPay id (decPayment v p) t l
  | Some 2%nat => mkSmartPay id p (decRemittance v t) l
  | Some 3%nat => mkSmartPay id p t (decLending v l)
  | _ => r
  end.

(** [json.Unmarshal(data, &sRes)] for [sRes := SmartPayTransaction{}]. *)
Definition UnmarshalSmartPay (data : string) : SmartPayTransaction :=
  match JSON.parse data with
  | Some (JSON.JObject ms) => fold_left setSmartPay ms zeroSmartPay
  | _ => zeroSmartPay
  end.

(** [json.Unmarshal] into the zero value of each nested struct. *)
Definition UnmarshalPayment (data : string) : PaymentTransaction :=
  match JSON.parse data with
  | Some j => decPayment j zeroPayment
  | None => zeroPayment
  end.
Definition UnmarshalRemittance (data : string) : RemittanceTransaction :=
  match JSON.parse data with
  | Some j => decRemittance j zeroRemittance
  | None => zeroRemittance
  end.
Definition UnmarshalLending (data : string) : LendingTransacation :=
  match JSON.parse data with
  | Some j => decLending j zeroLending
  | None => zeroLending
  end.

(** The JSON strings [initSmartPay] builds by hand (lines 421-431), each as
    a function of the record it is built for. *)
Definition strPmt (p : PaymentTransaction) : string :=
  raw "{'paymentTransID': '" +:+ PaymentTransID p +:+ raw "', 'drawerID': '" +:+ pDrawerID p
  +:+ raw "', 'payeeID': '" +:+ pPayeeID p +:+ raw "', 'amount': "
  +:+ FormatFloat (pAmount p) +:+ raw ", 'currency': '" +:+ pCurrency p +:+ raw "'}".

Definition strRem (t : RemittanceTransaction) : string :=
  raw "{'remittanceTransID': '" +:+ RemittanceTransID t +:+ raw "', 'sourceID': '" +:+ SourceID t
  +:+ raw "', 'sourceCurrency': '" +:+ SourceCurrency t
  +:+ raw "', 'destinationID': '" +:+ DestinationID t
  +:+ raw "', 'destinationCurrency': '" +:+ DestinationCurrency t
  +:+ raw "','amount': " +:+ FormatFloat (rAmount t)
  +:+ raw ", 'ExchangeRate': " +:+ FormatFloat (ExchangeRate t) +:+ raw "'}".

Definition strLen (l : LendingTransacation) : string :=
  raw "{'lendingTransID': '" +:+ LendingTransID l +:+ raw "', 'lendorID': '" +:+ LendorID l
  +:+ raw "', 'borrowerID': '" +:+ BorrowerID l +:+ raw "', 'loanAmount': "
  +:+ FormatFloat (LoanAmount l) +:+ raw ", 'currency': '" +:+ lCurrency l
  +:+ raw "','loanRate': " +:+ FormatFloat (LoanRate l)
  +:+ raw ", 'loanReturnDate': '" +:+ LoanReturnDate l +:+ raw "'}".

Definition strSmPay (s : SmartPayTransaction) : string :=
  raw "{'SmartPayTransID': '" +:+ SmartPayTransID s
  +:+ raw "', 'PaymentTrans': '" +:+ strPmt (PaymentTrans s)
  +:+ raw "', 'RemitTrans': '" +:+ strRem (RemitTrans s)
  +:+ raw "', 'LendTrans': '" +:+ strLen (LendTrans s) +:+ raw "'}".

(** [if len(args[i]) <= 0 { return nil, errors.New(msg) }]. *)
Definition nonEmpty (args : list string) (i : nat) (msg : error) : Tx unit :=
  a ← index args i;
  failIf (len a <=? 0) msg.

(** [f, err := strconv.ParseFloat(s, 64)] followed by
    [if err != nil { return nil, errors.New(msg) }]. *)
Definition parseFloatOr (s : string) (msg : error) : Tx float64 :=
  match ParseFloat s with
  | Some f => mret f
  | None => fail msg
  end.

(** [JsonWrite] (lines 256-272). *)
Definition JsonWrite (args : list string) : Tx string :=
  failIf (negb (len args =? 2))
    "Incorrect number of arguments. Expecting 2. name of the variable and value to set";;
  name ← index args 0;
  a1 ← index args 1;
  let value := "JsonWrite77:" +:+ a1 in
  err ← PutState name value;
  failWith err;;
  mret nilBytes.

(** [initSmartPay] (lines 277-453).  The error of the last [PutState] is
    assigned and never read. *)
Definition initSmartPay (args : list string) : Tx string :=
  failIf (len args <? 15) "Incorrect number of arguments. Expecting 15";;
  (* Payment input sanitation *)
  nonEmpty args 0 "1st argument must be a non-empty string";;
  nonEmpty args 1 "2nd argument must be a non-empty string";;
  nonEmpty args 2 "3rd argument must be a non-empty string";;
  nonEmpty args 3 "4th argument must be a non-empty string";;
  nonEmpty args 4 "5th argument must be a non-empty string";;
  ptransID ← ToLower <$> index args 0;
  drawerID ← ToLower <$> index args 1;
  payeeID ← ToLower <$> index args 2;
  a3 ← index args 3;
  pAmount ← parseFloatOr a3 "3rd argument must be a Floating Point";
  currency ← ToLower <$> index args 4;
  (* Remittance input sanitation *)
  nonEmpty args 5 "6th argument must be a non-empty string";;
  nonEmpty args 6 "7th argument must be a non-empty string";;
  nonEmpty args 7 "8th argument must be a non-empty string";;
  nonEmpty args 8 "9th argument must be a non-empty string";;
  nonEmpty args 9 "10th argument must be a non-empty string";;
  nonEmpty args 10 "11th argument must be a non-empty string";;
  nonEmpty args 11 "12th argument must be a non-empty string";;
  rtransID ← ToLower <$> index args 5;
  sourceID ← ToLower <$> index args 6;
  sourceCurrency ← ToLower <$> index args 7;
  destinationID ← ToLower <$> index args 8;
  destinationCurrency ← ToLower <$> index args 9;
  a10 ← index args 10;
  rAmount ← parseFloatOr a10 "10 argument must be a Floating Point";
  a11 ← index args 11;
  exchangeRate ← parseFloatOr a11 "11 argument must be a Floating Point";
  (* Lending input sanitation *)
  nonEmpty args 12 "13th argument must be a non-empty string";;
  nonEmpty args 13 "14th argument must be a non-empty string";;
  nonEmpty args 14 "15th argument must be a non-empty string";;
  nonEmpty args 15 "16th argument must be a non-empty string";;
  nonEmpty args 16 "17th argument must be a non-empty string";;
  nonEmpty args 17 "18th argument must be a non-empty string";;
  nonEmpty args 18 "19th argument must be a non-empty string";;
  ltransID ← ToLower <$> index args 12;
  lendorID ← ToLower <$> index args 13;
  borrowerID ← ToLower <$> index args 14;
  a15 ← index args 15;
  loanAmount ← parseFloatOr a15 "15 argument must be a Floating Point";
  lcurrency ← ToLower <$> index args 16;
  a17 ← index args 17;
  loanRate ← parseFloatOr a17 "17 argument must be a Floating Point";
  loanReturnDate ← ToLower <$> index args 18;
  (* SmartPay data *)
  nonEmpty args 19 "20th argument must be a non-empty string";;
  smartPayID ← ToLower <$> index args 19;
  (* check if the transaction already exists *)
  '(smartPayAsBytes, err) ← GetState smartPayID;
  failIf (notNil err) "Failed to get Transaction name";;
  let sRes := UnmarshalSmartPay smartPayAsBytes in
  failIf (String.eqb (SmartPayTransID sRes) smartPayID)
    "This smartPay Tranaction arleady exists";;
  (* build the json strings manually *)
  let payment := mkPayment ptransID drawerID payeeID pAmount currency in
  let remittance :=
    mkRemittance rtransID sourceID sourceCurrency destinationID destinationCurrency
      rAmount exchangeRate in
  let lending :=
    mkLending ltransID lendorID borrowerID loanAmount lcurrency loanRate loanReturnDate in
  let strSmPay := strSmPay (mkSmartPay smartPayID payment remittance lending) in
  err ← PutState smartPayID strSmPay;
  failWith err;;
  (* get the index *)
  '(smartPayAsBytes, err) ← GetState smartPayIndexStr;
  failIf (notNil err) "Failed to get marble index";;
  let smartPayIndex := JSON.UnmarshalStrings smartPayAsBytes in
  let smartPayIndex := append smartPayIndex smartPayID in
  let jsonAsBytes := JSON.MarshalStrings smartPayIndex in
  err ← PutState smartPayIndexStr jsonAsBytes;
  mret nilBytes.

(** [Invoke] (lines 136-155). *)
Definition Invoke (function : string) (args : list string) : Tx string :=
  if String.eqb function "init" then Init "init" args
  else if String.eqb function "delete" then Delete args
  else if String.eqb function "write" then Write args
  else if String.eqb function "initSmartPay" then initSmartPay args
  else if String.eqb function "jsonWrite" then JsonWrite args
  else fail "Received unknown function invocation".

(** [Run] (lines 128-131). *)
Definition Run (function : string) (args : list string) : Tx string :=
  Invoke function args.

End WithLib.
End SmartPay.

(** ** The second file: Payment transactions (lines 454-801) *)

Module Payment.
Section WithLib.
Context `{GoLib}.

(** [PaymentTransaction] (lines 493-499), each field with its JSON name.
    The other struct types of the file are used by none of its functions. *)
Record PaymentTransaction : Type := mkPayment {
  TransactionID : string;   (* transactionID *)
  DrawerID : string;        (* drawerID *)
  PayeeID : string;         (* payeeID *)
  Amount : Z;               (* amount *)
  Currency : string         (* currency *)
}.

Definition zeroPayment : PaymentTransaction :=
  mkPayment EmptyString EmptyString EmptyString 0 EmptyString.

Definition setPayment (r : PaymentTransaction) (m : string * JSON.json)
    : PaymentTransaction :=
  let '(k, v) := m in
  let '(mkPayment id dr pa am cu) := r in
  match JSON.fieldFor ["transactionID"; "drawerID"; "payeeID"; "amount"; "currency"]%string k with
  | Some 0%nat => mkPayment (JSON.decString v id) dr pa am cu
  | Some 1%nat => mkPayment id (JSON.decString v dr) pa am cu
  | Some 2%nat => mkPayment id dr (JSON.decString v pa) am cu
  | Some 3%nat => mkPayment id dr pa (JSON.decInt v am) cu
  | Some 4%nat => mkPayment id dr pa am (JSON.decString v cu)
  | _ => r
  end.

(** [json.Unmarshal(data, &res)] for [res := PaymentTransaction{}]. *)
Definition UnmarshalPayment (data : string) : PaymentTransaction :=
  match JSON.parse data with
  | Some (JSON.JObject ms) => fold_left setPayment ms zeroPayment
  | _ => zeroPayment
  end.

(** The JSON string [initPayment] builds by hand (line 780), as a function
    of the record it is built for. *)
Definition str (r : PaymentTransaction) : string :=
  raw "{'transactionID': '" +:+ TransactionID r +:+ raw "', 'drawerID': '" +:+ DrawerID r
  +:+ raw ", 'payeeID': '" +:+ PayeeID r +:+ raw "', 'amount': "
  +:+ Itoa (Amount r) +:+ TransactionID r +:+ raw "', 'currency': '" +:+ Currency r
  +:+ raw "'}".

(** [if len(args[i]) <= 0 { return nil, errors.New(msg) }]. *)
Definition nonEmpty (args : list string) (i : nat) (msg : error) : Tx unit :=
  a ← index args i;
  failIf (len a <=? 0) msg.

(** [n, err := strconv.Atoi(s)] followed by
    [if err != nil { return nil, errors.New(msg) }]. *)
Definition atoiOr (s : string) (msg : error) : Tx Z :=
  match Atoi s with
  | Some n => mret n
  | None => fail msg
  end.

(** [NewEcrire] (lines 709-725). *)
Definition NewEcrire (args : list string) : Tx string :=
  failIf (negb (len args =? 2))
    "Incorrect number of arguments. Expecting 2. name of the variable and value to set";;
  name ← index args 0;
  a1 ← index args 1;
  let value := "SmartPayTransactions:" +:+ a1 in
  err ← PutState name value;
  failWith err;;
  mret nilBytes.

(** [initPayment] (lines 730-801).  The error of the last [PutState] is
    assigned and never read. *)
Definition initPayment (args : list string) : Tx string :=
  failIf (negb (len args =? 5)) "Incorrect number of arguments. Expecting 5";;
  (* input sanitation *)
  nonEmpty args 0 "1st argument must be a non-empty string";;
  nonEmpty args 1 "2nd argument must be a non-empty string";;
  nonEmpty args 2 "3rd argument must be a non-empty string";;
  nonEmpty args 3 "4th argument must be a non-empty string";;
  nonEmpty args 4 "5th argument must be a non-empty string";;
  transID ← index args 0;
  drawerID ← ToLower <$> index args 1;
  payeeID ← ToLower <$> index args 2;
  a3 ← index args 3;
  amount ← atoiOr a3 "3rd argument must be a numeric string";
  currency ← ToLower <$> index args 4;
  (* check if the payment already exists *)
  '(paymentAsBytes, err) ← GetState transID;
  failIf (notNil err) "Failed to get Transaction name";;
  let res := UnmarshalPayment paymentAsBytes in
  failIf (String.eqb (TransactionID res) transID) "This PaymentTranaction arleady exists";;
  (* build the json string manually *)
  let str := str (mkPayment transID drawerID payeeID amount currency) in
  err ← PutState transID str;
  failWith err;;
  (* get the index *)
  '(paymentAsBytes, err) ← GetState paymentIndexStr;
  failIf (notNil err) "Failed to get marble index";;
  let paymentIndex := JSON.UnmarshalStrings paymentAsBytes in
  let paymentIndex := append paymentIndex transID in
  let jsonAsBytes := JSON.MarshalStrings paymentIndex in
  err ← PutState paymentIndexStr jsonAsBytes;
  mret nilBytes.

(** [Invoke] (lines 589-608). *)
Definition Invoke (function : string) (args : list string) : Tx string :=
  if String.eqb function "init" then Init "init" args
  else if String.eqb function "delete" then Delete args
  else if String.eqb function "write" then Write args
  else if String.eqb function "initPayment" then initPayment args
  else if String.eqb function "newEcrire" then NewEcrire args
  else fail "Received unknown function invocation".

(** [Run] (lines 581-584). *)
Definition Run (function : string) (args : list string) : Tx string :=
  Invoke function args.

End WithLib.
End Payment.

(** ** An instance of the library for running the chaincode

    [float64] is cut down to the natural numbers below 2^53, which a
    [float64] holds exactly.  On a text of plain decimal digits that spells
    one, [ParseFloat] gives the number, and [FormatFloat] writes a number
    back in plain digits, both as Go does; a text with a letter in it that no
    syntax of a number has is rejected, as Go does.  The examples below use
    no other text.  [ToLower] is Go's on ASCII text. *)

Definition asciiToLower (s : string) : string :=
  string_of_list_ascii (map JSON.lowerByte (list_ascii_of_string s)).

Definition parseNatural (s : string) : option Z :=
  match s with
  | EmptyString => None
  | _ =>
      match parseDigits 0 s with
      | Some n => if n <? 2 ^ 53 then Some n else None
      | None => None
      end
  end.

Definition evalLib : GoLib := {|
  float64 := Z;
  float64_zero := 0;
  ParseFloat := parseNatural;
  FormatFloat := Itoa;
  ToLower := asciiToLower
|}.

(** ** Spec-level vocabulary *)

(** The elements of a slice. *)
Definition elems (s : strings) : list string := default [] s.

(** The bytes the ledger holds under a key: none when the key is absent. *)
Definition stored (l : gmap string string) (key : string) : string :=
  default EmptyString (l !! key).

(** The position an error message names: the number it starts with
    ("4th argument ...", "10 argument ..."). *)
Definition namedPosition (e : error) : option Z :=
  match JSON.spanDigits e with
  | (EmptyString, _) => None
  | (d, _) => parseDigits 0 d
  end.



(** The record [initPayment] is to build from its arguments: the
    transaction id as it is given, the drawer, the payee and the currency in
    lower case, the amount as the integer it spells. *)
Definition paymentOf `{GoLib} (args : list string) : option Payment.PaymentTransaction :=
  match args with
  | [a0; a1; a2; a3; a4] =>
      match Atoi a3 with
      | Some amount =>
          Some (Payment.mkPayment a0 (ToLower a1) (ToLower a2) amount (ToLower a4))
      | None => None
      end
  | _ => None
  end.

(** The record [initSmartPay] is to build from its arguments: every string
    in lower case, the return date of the loan too, and every amount and
    rate as the number it spells. *)
Definition smartPayOf `{GoLib} (args : list string) : option SmartPay.SmartPayTransaction :=
  match args with
  | a0 :: a1 :: a2 :: a3 :: a4 :: a5 :: a6 :: a7 :: a8 :: a9 :: a10 :: a11 :: a12
    :: a13 :: a14 :: a15 :: a16 :: a17 :: a18 :: a19 :: _ =>
      match ParseFloat a3, ParseFloat a10, ParseFloat a11, ParseFloat a15, ParseFloat a17 with
      | Some pAmount, Some rAmount, Some exchangeRate, Some loanAmount, Some loanRate =>
          Some (SmartPay.mkSmartPay (ToLower a19)
                  (SmartPay.mkPayment (ToLower a0) (ToLower a1) (ToLower a2) pAmount
                     (ToLower a4))
                  (SmartPay.mkRemittance (ToLower a5) (ToLower a6) (ToLower a7) (ToLower a8)
                     (ToLower a9) rAmount exchangeRate)
                  (SmartPay.mkLending (ToLower a12) (ToLower a13) (ToLower a14) loanAmount
                     (ToLower a16) loanRate (ToLower a18)))
      | _, _, _, _, _ => None
      end
  | _ => None
  end.

(** The index under [key] with [id] appended: read, decoded, extended and
    written back. *)
Definition indexAppend (key id : string) (l : gmap string string) : gmap string string :=
  <[key := JSON.MarshalStrings (append (JSON.UnmarshalStrings (stored l key)) id)]> l.



(** The ledger of [stub'] is that of [stub] at every key outside [keys]. *)
Definition unchangedOutside (keys : list string) (stub stub' : ChaincodeStub) : Prop :=
  forall k : string, k ∉ keys -> ledger stub' !! k = ledger stub !! k.

(** The run ended in a panic. *)
Definition panicked {A : Type} (r : outcome A) : bool :=
  match r with
  | Panic _ => true
  | _ => false
  end.

(** What [initPayment] does once its arguments passed the checks, as a
    function of the record they spell (lines 766-801): the existence check,
    the record stored, the index read, extended and stored. *)
Definition storePayment `{GoLib} (r : Payment.PaymentTransaction) : Tx string :=
  let transID := Payment.TransactionID r in
  '(paymentAsBytes, err) ← GetState transID;
  failIf (notNil err) "Failed to get Transaction name";;
  let res := Payment.UnmarshalPayment paymentAsBytes in
  failIf (String.eqb (Payment.TransactionID res) transID)
    "This PaymentTranaction arleady exists";;
  err ← PutState transID (Payment.str r);
  failWith err;;
  '(paymentAsBytes, err) ← GetState paymentIndexStr;
  failIf (notNil err) "Failed to get marble index";;
  let paymentIndex := JSON.UnmarshalStrings paymentAsBytes in
  let paymentIndex := append paymentIndex transID in
  let jsonAsBytes := JSON.MarshalStrings paymentIndex in
  err ← PutState paymentIndexStr jsonAsBytes;
  mret nilBytes.

(** The same for [initSmartPay] (lines 399-453). *)
Definition storeSmartPay `{GoLib} (s : SmartPay.SmartPayTransaction) : Tx string :=
  let smartPayID := SmartPay.SmartPayTransID s in
  '(smartPayAsBytes, err) ← GetState smartPayID;
  failIf (notNil err) "Failed to get Transaction name";;
  let sRes := SmartPay.UnmarshalSmartPay smartPayAsBytes in
  failIf (String.eqb (SmartPay.SmartPayTransID sRes) smartPayID)
    "This smartPay Tranaction arleady exists";;
  err ← PutState smartPayID (SmartPay.strSmPay s);
  failWith err;;
  '(smartPayAsBytes, err) ← GetState smartPayIndexStr;
  failIf (notNil err) "Failed to get marble index";;
  let smartPayIndex := JSON.UnmarshalStrings smartPayAsBytes in
  let smartPayIndex := append smartPayIndex smartPayID in
  let jsonAsBytes := JSON.MarshalStrings smartPayIndex in
  err ← PutState smartPayIndexStr jsonAsBytes;
  mret nilBytes.

(** A string of ASCII bytes: on such ids the model of [encoding/json]
    is Go's (no byte for [json.Marshal] to rewrite as invalid UTF-8). *)
Fixpoint isASCII (s : string) : bool :=
  match s with
  | EmptyString => true
  | String c s' => (N_of_ascii c <? 128)%N && isASCII s'
  end.

(** The unit the scanner reads back for a byte [json.Marshal] wrote: the
    code unit of a [\u00XX] escape for the bytes written so, the byte itself
    for the others. *)
Definition unitOf (c : ascii) : JSON.unit16 :=
  let n := N_of_ascii c in
  if Ascii.eqb c "010" || Ascii.eqb c "013" || Ascii.eqb c "009" then JSON.UByte c
  else if (n <? 32)%N || Ascii.eqb c "<" || Ascii.eqb c ">" || Ascii.eqb c "&"
  then JSON.UEscape n
  else JSON.UByte c.

(** ** Running the chaincode step by step *)

Ltac tx :=
  repeat (progress (
    cbv beta iota delta
      [mbind Tx_bind mret Tx_ret fmap Tx_fmap fail failIf failWith index notNil negb
       Payment.nonEmpty Payment.atoiOr SmartPay.nonEmpty SmartPay.parseFloatOr
       GetState PutState DelState nextFault faults ledger];
    cbn [lookup list_lookup])).

(** One argument check: the case of the branch the code stands at. *)
Ltac tx_case :=
  match goal with
  | |- context [if (len ?a <=? 0) then _ else _] =>
      let E := fresh "E" in destruct (len a <=? 0) eqn:E
  | |- context [match Atoi ?a with _ => _ end] =>
      let E := fresh "E" in destruct (Atoi a) eqn:E
  | |- context [match ParseFloat ?a with _ => _ end] =>
      let E := fresh "E" in destruct (ParseFloat a) eqn:E
  end; tx.

(** The argument count, on a list whose length shows. *)
Ltac len_args :=
  match goal with
  | |- context [len ?l <? 15] =>
      let b := eval vm_compute in (len l <? 15) in
      change (len l <? 15) with b
  | |- context [len ?l =? 5] =>
      let b := eval vm_compute in (len l =? 5) in
      change (len l =? 5) with b
  end.

(** ** Lists and strings *)

Lemma len_empty : (len EmptyString <=? 0) = true.
Proof. reflexivity. Qed.

Lemma len_nonempty (a : string) : a <> EmptyString -> (len a <=? 0) = false.
Proof. destruct a; [congruence | intros _]. unfold len, string_len. cbn [String.length]. apply Z.leb_gt. lia. Qed.

Lemma len_positive (a : string) : (len a <=? 0) = false -> a <> EmptyString.
Proof. intros E ->. rewrite len_empty in E. discriminate. Qed.

Lemma len_list {A : Type} (l : list A) : len l = Z.of_nat (length l).
Proof. reflexivity. Qed.

(** The loop from iteration [length pre], nothing found so far. *)
Lemma removeLoop_found (pre l1 l2 : list string) (name : string) :
  name ∉ l1 ->
  removeLoop (pre ++ l1 ++ name :: l2) name (length pre) (l1 ++ name :: l2)
  = pre ++ l1 ++ l2.
Proof.
  revert pre. induction l1 as [|x l1 IH]; intros pre Hnot.
  - cbn [removeLoop app]. rewrite String.eqb_refl.
    rewrite take_app_length. f_equal.
    rewrite (cons_middle name pre l2), app_assoc.
    apply drop_app_length'. rewrite length_app. cbn. lia.
  - cbn [removeLoop app].
    destruct (String.eqb_spec x name) as [->|Hne].
    + exfalso. apply Hnot. left.
    + replace (pre ++ x :: l1 ++ name :: l2) with ((pre ++ [x]) ++ l1 ++ name :: l2)
        by (rewrite <- app_assoc; reflexivity).
      replace (S (length pre)) with (length (pre ++ [x])) by (rewrite length_app; cbn; lia).
      rewrite IH.
      * rewrite <- app_assoc. reflexivity.
      * intros Hin. apply Hnot. right. exact Hin.
Qed.


(** ** Delete and the index *)




(** ** The dispatch *)

Lemma eqb_false (a b : string) : a <> b -> String.eqb a b = false.
Proof. intros Hne. apply String.eqb_neq, Hne. Qed.

(** C10. A function name that [Invoke] does not dispatch on ([init],
    [delete], [write], the create operation and the tagged write of the
    file), or that is not [read] for [Query], gets the unknown-function
    error, and the stub is as it was: no store call was made. *)
Theorem unknown_function_rejected `{GoLib} (function : string) (args : list string)
    (stub : ChaincodeStub) :
  (function ∉ ["init"; "delete"; "write"; "initSmartPay"; "jsonWrite"]%string ->
   SmartPay.Invoke function args stub
   = (stub, Error "Received unknown function invocation"))
  /\ (function ∉ ["init"; "delete"; "write"; "initPayment"; "newEcrire"]%string ->
      Payment.Invoke function args stub
      = (stub, Error "Received unknown function invocation"))
  /\ (function <> "read"%string ->
      Query function args stub = (stub, Error "Received unknown function query")).
Proof.
  split; [|split].
  - intros Hnot. unfold SmartPay.Invoke.
    rewrite !eqb_false; [reflexivity|..]; intros ->; apply Hnot; set_solver.
  - intros Hnot. unfold Payment.Invoke.
    rewrite !eqb_false; [reflexivity|..]; intros ->; apply Hnot; set_solver.
  - intros Hne. unfold Query. rewrite eqb_false by exact Hne. reflexivity.
Qed.

(** [initPayment] is no function of the first file, nor [initSmartPay] of
    the second. *)
Lemma unknown_function_rejected_witness :
  SmartPay.Invoke (H := evalLib) "initPayment" ["tx1"]%string (mkStub ∅ [])
  = (mkStub ∅ [], Error "Received unknown function invocation").
Proof.
  apply (proj1 (unknown_function_rejected (H := evalLib) "initPayment" ["tx1"]%string
                  (mkStub ∅ []))).
  intros Hin. repeat (apply elem_of_cons in Hin as [Hin|Hin]; [discriminate Hin|]).
  apply elem_of_nil in Hin. exact Hin.
Defined.

(** ** The create operations, run *)

Lemma len_5 (a0 a1 a2 a3 a4 : string) : (len [a0; a1; a2; a3; a4] =? 5) = true.
Proof. reflexivity. Qed.

(** [initPayment] on five arguments that pass its checks, the store not
    failing: the existence check, then the record and the index written. *)
Lemma initPayment_run `{GoLib} (a0 a1 a2 a3 a4 : string) (amount : Z)
    (l : gmap string string) :
  a0 <> EmptyString -> a1 <> EmptyString -> a2 <> EmptyString ->
  a3 <> EmptyString -> a4 <> EmptyString -> Atoi a3 = Some amount ->
  let r := Payment.mkPayment a0 (ToLower a1) (ToLower a2) amount (ToLower a4) in
  let l' := <[a0 := Payment.str r]> l in
  Payment.initPayment [a0; a1; a2; a3; a4] (mkStub l [])
  = if String.eqb (Payment.TransactionID (Payment.UnmarshalPayment (stored l a0))) a0
    then (mkStub l [], Error "This PaymentTranaction arleady exists")
    else (mkStub (<[paymentIndexStr :=
                     JSON.MarshalStrings
                       (append (JSON.UnmarshalStrings (stored l' paymentIndexStr)) a0)]> l')
            [],
          Return nilBytes).
Proof.
  intros H0 H1 H2 H3 H4 HA r l'. unfold Payment.initPayment.
  rewrite len_5. tx.
  rewrite !len_nonempty by assumption. tx. rewrite HA. tx.
  fold (stored l a0).
  destruct (String.eqb _ a0); tx; reflexivity.
Qed.

(** C6. The error of the [PutState] that persists the index is dropped.
    With the store failing on that call and on no call before it, [Delete]
    and [initPayment] return no error; the index is not written. *)
Theorem index_PutState_error_dropped `{GoLib} (e : error) (rest : list (option error))
    (l : gmap string string) :
  (forall name : string,
      Delete [name] (mkStub l (None :: None :: Some e :: rest))
      = (mkStub (delete name l) rest, Return nilBytes))
  /\ (forall (a0 a1 a2 a3 a4 : string) (amount : Z),
        a0 <> EmptyString -> a1 <> EmptyString -> a2 <> EmptyString ->
        a3 <> EmptyString -> a4 <> EmptyString -> Atoi a3 = Some amount ->
        Payment.TransactionID (Payment.UnmarshalPayment (stored l a0)) <> a0 ->
        Payment.initPayment [a0; a1; a2; a3; a4]
          (mkStub l (None :: None :: None :: Some e :: rest))
        = (mkStub (<[a0 := Payment.str
                             (Payment.mkPayment a0 (ToLower a1) (ToLower a2) amount
                                (ToLower a4))]> l) rest,
           Return nilBytes)).
Proof.
  split.
  - intros name. reflexivity.
  - intros a0 a1 a2 a3 a4 amount H0 H1 H2 H3 H4 HA Hnew.
    unfold Payment.initPayment. rewrite len_5. tx.
    rewrite !len_nonempty by assumption. tx. rewrite HA. tx.
    fold (stored l a0). rewrite (eqb_false _ _ Hnew). tx. reflexivity.
Qed.

(** The payment [tx1], the fourth store call failing. *)
Lemma index_PutState_error_dropped_witness :
  Payment.initPayment (H := evalLib) ["tx1"; "alice"; "bob"; "35"; "usd"]%string
    (mkStub ∅ [None; None; None; Some "ledger unavailable"%string])
  = (mkStub (<["tx1"%string :=
                Payment.str (Payment.mkPayment "tx1" "alice" "bob" 35 "usd")]> ∅) [],
     Return nilBytes).
Proof.
  apply (proj2 (index_PutState_error_dropped (H := evalLib) "ledger unavailable" [] ∅)
           "tx1" "alice" "bob" "35" "usd" 35)%string;
    first [ discriminate | reflexivity ].
Defined.

(** ** The argument checks *)

Lemma len_20 (a0 a1 a2 a3 a4 a5 a6 a7 a8 a9 a10 a11 a12 a13 a14 a15 a16 a17 a18 a19 : string)
    (more : list string) :
  (len (a0 :: a1 :: a2 :: a3 :: a4 :: a5 :: a6 :: a7 :: a8 :: a9 :: a10 :: a11 :: a12
          :: a13 :: a14 :: a15 :: a16 :: a17 :: a18 :: a19 :: more) <? 15) = false.
Proof. apply Z.ltb_ge. rewrite len_list. cbn [length]. lia. Qed.

Lemma len_not_5 (a0 a1 a2 a3 a4 a5 : string) (more : list string) :
  (len (a0 :: a1 :: a2 :: a3 :: a4 :: a5 :: more) =? 5) = false.
Proof. apply Z.eqb_neq. rewrite len_list. cbn [length]. lia. Qed.

(** A check that passed contradicts what makes the list a rejected one. *)
Ltac passed_check :=
  match goal with
  | E : (len EmptyString <=? 0) = false |- _ => rewrite len_empty in E; discriminate E
  | E : ?x = Some _, E' : ?x = None |- _ => rewrite E in E'; discriminate E'
  end.

Ltac elem_cases H :=
  repeat (apply elem_of_cons in H as [H|H]; [subst|]); try (apply elem_of_nil in H; destruct H).





(** ** The argument count of initSmartPay *)

Ltac nonempty_args H :=
  repeat (apply Forall_cons in H as [?%len_nonempty H]).

(** C1. [initSmartPay] checks for fewer than 15 arguments and reads 20.  On
    a list of 15 to 19 arguments that pass the checks made on them it
    returns no error about the argument count: it indexes past the end of
    the list, and the Go run time panics. *)
Theorem initSmartPay_short_list_panics `{GoLib} (args : list string)
    (stub : ChaincodeStub) :
  15 <= len args < 20 ->
  Forall (fun a => a <> EmptyString) args ->
  (forall (i : nat) a, i ∈ [3; 10; 11; 15; 17]%nat -> args !! i = Some a ->
                       is_Some (ParseFloat a)) ->
  SmartPay.initSmartPay args stub = (stub, Panic "index out of range").
Proof.
  intros Hlen Hne HP. unfold SmartPay.initSmartPay.
  do 15 (destruct args as [|? args]; [exfalso; vm_compute in Hlen; intuition congruence|]).
  do 5 (destruct args as [|? args];
        [ clear Hlen; len_args; nonempty_args Hne; tx;
          repeat match goal with
                 | E : (len ?a <=? 0) = false |- _ => rewrite E; clear E; tx
                 end;
          repeat match goal with
                 | |- context [match ParseFloat ?a with _ => _ end] =>
                     let E := fresh "E" in
                     destruct (ParseFloat a) eqn:E;
                     [ tx
                     | exfalso;
                       first [ destruct (HP 3%nat a ltac:(set_solver) eq_refl) as [? HS]
                             | destruct (HP 10%nat a ltac:(set_solver) eq_refl) as [? HS]
                             | destruct (HP 11%nat a ltac:(set_solver) eq_refl) as [? HS]
                             | destruct (HP 15%nat a ltac:(set_solver) eq_refl) as [? HS]
                             | destruct (HP 17%nat a ltac:(set_solver) eq_refl) as [? HS] ];
                       rewrite HS in E; discriminate E ]
                 end;
          reflexivity
        |]).
  exfalso. rewrite len_list in Hlen. cbn [length] in Hlen. lia.
Qed.

(** Fifteen well-formed arguments. *)
Lemma initSmartPay_short_list_panics_witness :
  SmartPay.initSmartPay (H := evalLib)
    ["p1"; "alice"; "bob"; "35"; "usd"; "r1"; "src"; "usd"; "dst"; "eur"; "100"; "2";
     "l1"; "lender"; "borrower"]%string (mkStub ∅ [])
  = (mkStub ∅ [], Panic "index out of range").
Proof.
  apply (initSmartPay_short_list_panics (H := evalLib)).
  - split; [intros Hgt; discriminate Hgt | reflexivity].
  - repeat (apply Forall_cons; split; [discriminate|]). apply Forall_nil_2.
  - intros i a Hi Ha.
    repeat (apply elem_of_cons in Hi as [->|Hi];
            [first [ injection Ha as <-; eexists; reflexivity | discriminate Ha ]|]).
    apply elem_of_nil in Hi. destruct Hi.
Defined.

(** ** The position an error names *)

(** C8. An amount that does not parse is the fourth argument of
    [initPayment] and of [initSmartPay], and the error names the third: the
    messages for a number count the positions from 0, those for an empty
    string from 1. *)
Theorem unparseable_amount_names_position_3 `{GoLib}
    (args : list string) (a3 : string) (stub : ChaincodeStub) :
  Forall (fun a => a <> EmptyString) (take 5 args) ->
  args !! 3%nat = Some a3 ->
  (len args = 5 -> Atoi a3 = None ->
   exists e, Payment.initPayment args stub = (stub, Error e)
             /\ namedPosition e = Some 3)
  /\ (15 <= len args -> ParseFloat a3 = None ->
      exists e, SmartPay.initSmartPay args stub = (stub, Error e)
                /\ namedPosition e = Some 3).
Proof.
  intros Hne Ha3. split.
  - intros Hlen HA. unfold Payment.initPayment.
    do 5 (destruct args as [|? args]; [discriminate Hlen|]).
    destruct args as [|? args];
      [|exfalso; rewrite len_list in Hlen; cbn [length] in Hlen; lia].
    cbn [take] in Hne. nonempty_args Hne. injection Ha3 as ->.
    len_args. tx.
    repeat match goal with
           | E : (len ?a <=? 0) = false |- _ => rewrite E; clear E; tx
           end.
    rewrite HA. tx. eexists. split; reflexivity.
  - intros Hlen HP. unfold SmartPay.initSmartPay.
    do 15 (destruct args as [|? args]; [exfalso; vm_compute in Hlen; congruence|]).
    cbn [take] in Hne. nonempty_args Hne. injection Ha3 as ->.
    do 5 (destruct args as [|? args];
          [ len_args; tx;
            repeat match goal with
                   | E : (len ?a <=? 0) = false |- _ => rewrite E; clear E; tx
                   end;
            rewrite HP; tx; eexists; split; reflexivity
          |]).
    rewrite len_20. tx.
    repeat match goal with
           | E : (len ?a <=? 0) = false |- _ => rewrite E; clear E; tx
           end.
    rewrite HP. tx. eexists. split; reflexivity.
Qed.

(** The amount [abc]. *)
Lemma unparseable_amount_names_position_3_witness :
  exists e,
    Payment.initPayment (H := evalLib) ["tx1"; "alice"; "bob"; "abc"; "usd"]%string
      (mkStub ∅ [])
    = (mkStub ∅ [], Error e)
    /\ namedPosition e = Some 3.
Proof.
  apply (proj1 (unparseable_amount_names_position_3 (H := evalLib)
                  ["tx1"; "alice"; "bob"; "abc"; "usd"]%string "abc" (mkStub ∅ [])
                  ltac:(repeat (apply Forall_cons; split; [discriminate|]); apply Forall_nil_2)
                  eq_refl)).
  - reflexivity.
  - reflexivity.
Defined.

(** ** The hand-built JSON *)

Section Runs.
#[local] Existing Instance evalLib.

(** C2. The string [initPayment] builds for a record is no JSON text: a
    quote is missing after the drawer and the transaction id follows the
    amount.  Nor are the strings [initSmartPay] builds for the remittance
    (a quote follows the exchange rate) and for the whole transaction (each
    nested object stands between quotes).  [json.Unmarshal] fails on them
    and leaves the zero value, not the record that was encoded. *)
Theorem hand_built_json_does_not_decode :
  let r := Payment.mkPayment "tx1" "alice" "bob" 35 "usd" in
  let p := SmartPay.mkPayment "p1" "alice" "bob" 35 "usd" in
  let t := SmartPay.mkRemittance "r1" "src" "usd" "dst" "eur" 100 2 in
  let l := SmartPay.mkLending "l1" "lender" "borrower" 1000 "usd" 5
             "2016-12-31" in
  let s := SmartPay.mkSmartPay "sp1" p t l in
  (JSON.parse (Payment.str r) = None
   /\ Payment.UnmarshalPayment (Payment.str r) = Payment.zeroPayment)
  /\ (JSON.parse (SmartPay.strRem t) = None
      /\ SmartPay.UnmarshalRemittance (SmartPay.strRem t) = SmartPay.zeroRemittance)
  /\ (JSON.parse (SmartPay.strSmPay s) = None
      /\ SmartPay.UnmarshalSmartPay (SmartPay.strSmPay s) = SmartPay.zeroSmartPay).
Proof. intros r p t l s. repeat split; reflexivity. Qed.

(** ** Creating a payment twice *)

(** C3. The existence check of [initPayment] decodes the stored record,
    which never decodes (C2): a second [initPayment] with the id of a stored
    payment returns no error, overwrites the record and appends the id to
    the payment index a second time. *)
Theorem second_initPayment_overwrites :
  let first := ["tx1"; "alice"; "bob"; "35"; "usd"]%string in
  let second := ["tx1"; "carol"; "dave"; "99"; "eur"]%string in
  let stub0 := fst (Init "init" ["1"%string] (mkStub ∅ [])) in
  let stub1 := fst (Payment.initPayment first stub0) in
  let stub2 := fst (Payment.initPayment second stub1) in
  snd (Payment.initPayment first stub0) = Return nilBytes
  /\ snd (Payment.initPayment second stub1) = Return nilBytes
  /\ stored (ledger stub1) "tx1"
     = Payment.str (Payment.mkPayment "tx1" "alice" "bob" 35 "usd")
  /\ stored (ledger stub2) "tx1"
     = Payment.str (Payment.mkPayment "tx1" "carol" "dave" 99 "eur")
  /\ JSON.UnmarshalStrings (stored (ledger stub1) paymentIndexStr) = Some ["tx1"%string]
  /\ JSON.UnmarshalStrings (stored (ledger stub2) paymentIndexStr)
     = Some ["tx1"; "tx1"]%string.
Proof. vm_compute. repeat split. Qed.

End Runs.

(** ** What a create operation that returns has done *)

Lemma initPayment_inv `{GoLib} (args : list string) (l : gmap string string)
    (stub' : ChaincodeStub) :
  Payment.initPayment args (mkStub l []) = (stub', Return nilBytes) ->
  exists r,
    paymentOf args = Some r
    /\ args !! 0%nat = Some (Payment.TransactionID r)
    /\ stub' = mkStub (indexAppend paymentIndexStr (Payment.TransactionID r)
                         (<[Payment.TransactionID r := Payment.str r]> l)) [].
Proof.
  unfold Payment.initPayment.
  do 5 (destruct args as [|? args]; [len_args; tx; discriminate|]).
  destruct args as [|? args]; [|rewrite len_not_5; tx; discriminate].
  len_args. tx. repeat (tx_case; try discriminate).
  destruct (String.eqb _ _); tx; [discriminate|].
  intros [= <-]. eexists. cbn [paymentOf]. rewrite E4.
  split; [reflexivity|]. split; reflexivity.
Qed.

Lemma initSmartPay_inv `{GoLib} (args : list string) (l : gmap string string)
    (stub' : ChaincodeStub) :
  SmartPay.initSmartPay args (mkStub l []) = (stub', Return nilBytes) ->
  exists s,
    smartPayOf args = Some s
    /\ stub' = mkStub (indexAppend smartPayIndexStr (SmartPay.SmartPayTransID s)
                         (<[SmartPay.SmartPayTransID s := SmartPay.strSmPay s]> l)) [].
Proof.
  unfold SmartPay.initSmartPay.
  do 20 (destruct args as [|? args];
         [try len_args; tx; repeat (tx_case; try discriminate); discriminate|]).
  rewrite len_20. tx. repeat (tx_case; try discriminate).
  destruct (String.eqb _ _); tx; [discriminate|].
  intros [= <-]. eexists. cbn [smartPayOf].
  repeat match goal with E : ParseFloat _ = Some _ |- _ => rewrite E; clear E end.
  split; reflexivity.
Qed.

(** ** Normalising the arguments *)

Section LowerCaseRun.
#[local] Existing Instance evalLib.

(** [initPayment] keys and builds the record with the transaction id as it
    was given, upper case kept; [initSmartPay] puts the return date of the
    loan in lower case. *)
Lemma create_does_not_lowercase_as_claimed :
  let stub1 :=
    fst (Payment.initPayment ["TX1"; "Alice"; "Bob"; "35"; "USD"]%string
           (mkStub ∅ [])) in
  let stub2 :=
    fst (SmartPay.initSmartPay
           ["P1"; "alice"; "bob"; "35"; "usd"; "R1"; "src"; "usd"; "dst"; "eur"; "100"; "2";
            "L1"; "lender"; "borrower"; "1000"; "usd"; "5"; "2016-12-31T00:00Z"; "SP1"]%string
           (mkStub ∅ [])) in
  (ToLower "TX1" = "tx1"%string
   /\ ledger stub1 !! "tx1"%string = None
   /\ ledger stub1 !! "TX1"%string
      = Some (Payment.str (Payment.mkPayment "TX1" "alice" "bob" 35 "usd")))
  /\ ledger stub2 !! "sp1"%string
     = Some (SmartPay.strSmPay
               (SmartPay.mkSmartPay "sp1"
                  (SmartPay.mkPayment "p1" "alice" "bob" 35 "usd")
                  (SmartPay.mkRemittance "r1" "src" "usd" "dst" "eur" 100 2)
                  (SmartPay.mkLending "l1" "lender" "borrower" 1000 "usd" 5
                     "2016-12-31t00:00z"))).
Proof. intros stub1 stub2. repeat split; reflexivity. Qed.

End LowerCaseRun.

(** C5, amended. A create operation that returns has built the record
    from its arguments normalised as [paymentOf] and [smartPayOf] say, and
    stored it under the id of that record: [initSmartPay] puts every string
    in lower case, the four ids, the currencies and the return date of the
    loan too; [initPayment] puts the drawer, the payee and the currency in
    lower case and takes the transaction id as it is given; the amounts and
    rates are the numbers the arguments spell. *)
Theorem create_normalises_arguments `{GoLib} (args : list string)
    (l : gmap string string) (stub' : ChaincodeStub) :
  (Payment.initPayment args (mkStub l []) = (stub', Return nilBytes) ->
   exists r,
     paymentOf args = Some r
     /\ ledger stub'
        = indexAppend paymentIndexStr (Payment.TransactionID r)
            (<[Payment.TransactionID r := Payment.str r]> l))
  /\ (SmartPay.initSmartPay args (mkStub l []) = (stub', Return nilBytes) ->
      exists s,
        smartPayOf args = Some s
        /\ ledger stub'
           = indexAppend smartPayIndexStr (SmartPay.SmartPayTransID s)
               (<[SmartPay.SmartPayTransID s := SmartPay.strSmPay s]> l)).
Proof.
  split.
  - intros Hrun. destruct (initPayment_inv args l stub' Hrun) as (r & Hr & _ & ->).
    exists r. split; [exact Hr | reflexivity].
  - intros Hrun. destruct (initSmartPay_inv args l stub' Hrun) as (s & Hs & ->).
    exists s. split; [exact Hs | reflexivity].
Qed.

(** The payment [TX1] of [Alice]. *)
Lemma create_normalises_arguments_witness :
  exists r,
    paymentOf (H := evalLib) ["TX1"; "Alice"; "Bob"; "35"; "USD"]%string = Some r
    /\ ledger (fst (Payment.initPayment (H := evalLib)
                      ["TX1"; "Alice"; "Bob"; "35"; "USD"]%string (mkStub ∅ [])))
       = indexAppend paymentIndexStr (Payment.TransactionID r)
           (<[Payment.TransactionID r := Payment.str r]> ∅).
Proof.
  apply (proj1 (create_normalises_arguments (H := evalLib)
                  ["TX1"; "Alice"; "Bob"; "35"; "USD"]%string ∅ _)).
  apply surjective_pairing.
Defined.

(** ** Delete after a create *)




(** * Further properties of the chaincode *)

(** One store call with a schedule whose next entry shows. *)
Ltac tx_fault :=
  match goal with
  | |- context [match ?fs with [] => _ | _ :: _ => _ end] =>
      is_var fs; destruct fs as [|[?|] ?]
  end; tx.

(** ** Init *)

(** [Init] with one argument that spells an integer, the store not failing:
    the integer goes under [abc] in plain decimal, both indices are set to
    the JSON text [null], which decodes to the nil slice, and every other
    key of the ledger keeps its value: the records stay. *)
Theorem Init_resets_the_indices (function a : string) (n : Z) (l : gmap string string) :
  Atoi a = Some n ->
  exists stub',
    Init function [a] (mkStub l []) = (stub', Return nilBytes)
    /\ ledger stub' !! "abc"%string = Some (Itoa n)
    /\ ledger stub' !! smartPayIndexStr = Some "null"%string
    /\ ledger stub' !! paymentIndexStr = Some "null"%string
    /\ JSON.UnmarshalStrings (stored (ledger stub') smartPayIndexStr) = None
    /\ JSON.UnmarshalStrings (stored (ledger stub') paymentIndexStr) = None
    /\ unchangedOutside ["abc"%string; smartPayIndexStr; paymentIndexStr]
         (mkStub l []) stub'.
Proof.
  intros HA. unfold Init. change (len [a] =? 1) with true. tx. rewrite HA. tx.
  eexists. split; [reflexivity|]. cbn [ledger]. unfold stored.
  repeat split;
    try (repeat first [ rewrite lookup_insert_eq
                      | rewrite lookup_insert_ne by discriminate ]; reflexivity).
  intros k Hk. cbn [ledger].
  rewrite !lookup_insert_ne; [reflexivity|..]; intros <-; apply Hk; set_solver.
Qed.

(** A reset with the argument [+007] on a ledger that holds a record. *)
Lemma Init_resets_the_indices_witness :
  exists stub',
    Init "init" ["+007"%string] (mkStub {["tx1"%string := "record"%string]} [])
    = (stub', Return nilBytes)
    /\ ledger stub' !! "abc"%string = Some (Itoa 7)
    /\ ledger stub' !! smartPayIndexStr = Some "null"%string
    /\ ledger stub' !! paymentIndexStr = Some "null"%string
    /\ JSON.UnmarshalStrings (stored (ledger stub') smartPayIndexStr) = None
    /\ JSON.UnmarshalStrings (stored (ledger stub') paymentIndexStr) = None
    /\ unchangedOutside ["abc"%string; smartPayIndexStr; paymentIndexStr]
         (mkStub {["tx1"%string := "record"%string]} []) stub'.
Proof.
  apply (Init_resets_the_indices "init" "+007" 7 {["tx1"%string := "record"%string]}).
  reflexivity.
Defined.

(** [Init] turns down an argument list that is not of length 1 and an
    argument that is no integer before any store call: the stub is as it
    was. *)
Theorem Init_rejects_bad_arguments (function : string) (args : list string)
    (stub : ChaincodeStub) :
  (len args <> 1 ->
   Init function args stub = (stub, Error "Incorrect number of arguments. Expecting 1"))
  /\ (forall a : string,
        args = [a] -> Atoi a = None ->
        Init function args stub = (stub, Error "Expecting integer value for asset holding")).
Proof.
  split.
  - intros Hlen. unfold Init.
    destruct (len args =? 1) eqn:E; [apply Z.eqb_eq in E; contradiction|]. reflexivity.
  - intros a -> HA. unfold Init. change (len [a] =? 1) with true. tx. rewrite HA. reflexivity.
Qed.

(** No argument, and the argument [1.5]. *)
Lemma Init_rejects_bad_arguments_witness :
  Init "init" [] (mkStub ∅ []) = (mkStub ∅ [], Error "Incorrect number of arguments. Expecting 1")
  /\ Init "init" ["1.5"%string] (mkStub ∅ [])
     = (mkStub ∅ [], Error "Expecting integer value for asset holding").
Proof.
  split.
  - apply (proj1 (Init_rejects_bad_arguments "init" [] (mkStub ∅ []))). discriminate.
  - apply (proj2 (Init_rejects_bad_arguments "init" ["1.5"%string] (mkStub ∅ [])) "1.5"%string);
      reflexivity.
Defined.

(** [Init] returns the error of the first [PutState] that fails as it is
    and stops; what it wrote before stays written. *)
Theorem Init_returns_the_store_error (function a : string) (n : Z) (e : error)
    (rest : list (option error)) (l : gmap string string) :
  Atoi a = Some n ->
  Init function [a] (mkStub l (Some e :: rest)) = (mkStub l rest, Error e)
  /\ Init function [a] (mkStub l (None :: Some e :: rest))
     = (mkStub (<["abc"%string := Itoa n]> l) rest, Error e)
  /\ Init function [a] (mkStub l (None :: None :: Some e :: rest))
     = (mkStub (<[smartPayIndexStr := "null"%string]> (<["abc"%string := Itoa n]> l)) rest,
        Error e).
Proof.
  intros HA. unfold Init. change (len [a] =? 1) with true. tx. rewrite HA. tx.
  repeat split.
Qed.

(** The second write failing. *)
Lemma Init_returns_the_store_error_witness :
  Init "init" ["5"%string] (mkStub ∅ [None; Some "ledger unavailable"%string])
  = (mkStub (<["abc"%string := Itoa 5]> ∅) [], Error "ledger unavailable").
Proof.
  apply (proj1 (proj2 (Init_returns_the_store_error "init" "5" 5 "ledger unavailable" [] ∅
                         eq_refl))).
Defined.

(** ** Write, JsonWrite, NewEcrire and read *)

(** What [Write] stores [read] returns; [JsonWrite] and [NewEcrire] store
    the value behind their marker, [JsonWrite77:] and
    [SmartPayTransactions:].  The store does not fail; no other key
    changes. *)
Theorem read_returns_what_was_written `{GoLib} (name value : string)
    (l : gmap string string) :
  (exists stub',
      Write [name; value] (mkStub l []) = (stub', Return nilBytes)
      /\ read [name] stub' = (stub', Return value)
      /\ unchangedOutside [name] (mkStub l []) stub')
  /\ (exists stub',
        SmartPay.JsonWrite [name; value] (mkStub l []) = (stub', Return nilBytes)
        /\ read [name] stub' = (stub', Return ("JsonWrite77:" +:+ value))
        /\ unchangedOutside [name] (mkStub l []) stub')
  /\ (exists stub',
        Payment.NewEcrire [name; value] (mkStub l []) = (stub', Return nilBytes)
        /\ read [name] stub' = (stub', Return ("SmartPayTransactions:" +:+ value))
        /\ unchangedOutside [name] (mkStub l []) stub').
Proof.
  unfold Write, SmartPay.JsonWrite, Payment.NewEcrire.
  change (len [name; value] =? 2) with true. tx.
  repeat split;
    (eexists; split; [reflexivity|]; split;
     [ unfold read; change (len [name] =? 1) with true; tx; cbn [ledger];
       rewrite lookup_insert_eq; reflexivity
     | intros k Hk; cbn [ledger]; apply lookup_insert_ne; intros <-; apply Hk;
       apply elem_of_cons; left; reflexivity ]).
Qed.

(** The three writes take two arguments: any other count is turned down
    before any store call.  A [PutState] that fails is returned as it is,
    nothing written. *)
Theorem writes_report_their_errors `{GoLib} (args : list string)
    (stub : ChaincodeStub) :
  let msg :=
    "Incorrect number of arguments. Expecting 2. name of the variable and value to set"%string in
  (len args <> 2 ->
   Write args stub = (stub, Error msg)
   /\ SmartPay.JsonWrite args stub = (stub, Error msg)
   /\ Payment.NewEcrire args stub = (stub, Error msg))
  /\ (forall (e : error) (rest : list (option error)),
        len args = 2 -> faults stub = Some e :: rest ->
        Write args stub = (mkStub (ledger stub) rest, Error e)
        /\ SmartPay.JsonWrite args stub = (mkStub (ledger stub) rest, Error e)
        /\ Payment.NewEcrire args stub = (mkStub (ledger stub) rest, Error e)).
Proof.
  intros msg. split.
  - intros Hlen. unfold Write, SmartPay.JsonWrite, Payment.NewEcrire.
    destruct (len args =? 2) eqn:E; [apply Z.eqb_eq in E; contradiction|].
    repeat split.
  - intros e rest Hlen Hf. destruct stub as [l fs]. cbn [faults] in Hf. subst fs.
    destruct args as [|name [|value [|? ?]]]; try discriminate Hlen.
    + repeat split.
    + exfalso. rewrite len_list in Hlen. cbn [length] in Hlen. lia.
Qed.

(** One argument; two arguments and a store that fails. *)
Lemma writes_report_their_errors_witness :
  Write ["k"%string] (mkStub ∅ [])
  = (mkStub ∅ [],
     Error "Incorrect number of arguments. Expecting 2. name of the variable and value to set")
  /\ Write ["k"; "v"]%string (mkStub ∅ [Some "ledger unavailable"%string])
     = (mkStub ∅ [], Error "ledger unavailable").
Proof.
  split.
  - apply (proj1 (writes_report_their_errors (H := evalLib) ["k"%string] (mkStub ∅ []))).
    discriminate.
  - apply (proj2 (writes_report_their_errors (H := evalLib) ["k"; "v"]%string
                    (mkStub ∅ [Some "ledger unavailable"%string]))
             "ledger unavailable"%string []); reflexivity.
Defined.

(** [read] of a key the ledger does not hold returns no bytes and no error.
    A [GetState] that fails gives an error that quotes the key, not the
    error of the store.  An argument list that is not of length 1 is turned
    down before the store call. *)
Theorem read_edge_cases (args : list string) (stub : ChaincodeStub) :
  (forall name : string,
      args = [name] -> faults stub = [] -> ledger stub !! name = None ->
      read args stub = (stub, Return EmptyString))
  /\ (forall (name : string) (e : error) (rest : list (option error)),
        args = [name] -> faults stub = Some e :: rest ->
        read args stub
        = (mkStub (ledger stub) rest,
           Error (raw "{'Error':'Failed to get state for " +:+ name +:+ raw "'}")))
  /\ (len args <> 1 ->
      read args stub
      = (stub, Error "Incorrect number of arguments. Expecting name of the var to query")).
Proof.
  destruct stub as [l fs]. cbn [faults ledger]. repeat split.
  - intros name -> -> Hl. unfold read. change (len [name] =? 1) with true. tx.
    rewrite Hl. reflexivity.
  - intros name e rest -> ->. reflexivity.
  - intros Hlen. unfold read.
    destruct (len args =? 1) eqn:E; [apply Z.eqb_eq in E; contradiction|]. reflexivity.
Qed.

(** A key that was never written. *)
Lemma read_edge_cases_witness :
  read ["tx1"%string] (mkStub ∅ []) = (mkStub ∅ [], Return EmptyString).
Proof.
  apply (proj1 (read_edge_cases ["tx1"%string] (mkStub ∅ [])) "tx1"%string); reflexivity.
Defined.

(** [Query] writes nothing: whatever the function name, the arguments and
    the failures of the store, the ledger after it is the ledger before. *)
Theorem Query_leaves_the_ledger (function : string) (args : list string)
    (stub : ChaincodeStub) :
  ledger (fst (Query function args stub)) = ledger stub
  /\ ledger (fst (read args stub)) = ledger stub.
Proof.
  assert (Hread : ledger (fst (read args stub)) = ledger stub).
  { unfold read. destruct (len args =? 1) eqn:E; [|reflexivity].
    destruct args as [|name args]; [discriminate E|]. tx.
    destruct stub as [l fs]. tx. destruct fs as [|[e|] fs]; reflexivity. }
  split; [|exact Hread].
  unfold Query. destruct (String.eqb function "read"); [exact Hread | reflexivity].
Qed.

(** ** Delete *)

(** [Delete] is no transaction.  A [DelState] that fails ends it with the
    ledger untouched; a [GetState] of the index that fails ends it with the
    key deleted and the index as it was.  It takes one argument. *)
Theorem Delete_failure_cases (args : list string) (stub : ChaincodeStub) :
  (len args <> 1 ->
   Delete args stub = (stub, Error "Incorrect number of arguments. Expecting 1"))
  /\ (forall (name : string) (e : error) (rest : list (option error)),
        args = [name] -> faults stub = Some e :: rest ->
        Delete args stub = (mkStub (ledger stub) rest, Error "Failed to delete state"))
  /\ (forall (name : string) (e : error) (rest : list (option error)),
        args = [name] -> faults stub = None :: Some e :: rest ->
        Delete args stub
        = (mkStub (delete name (ledger stub)) rest,
           Error "Failed to get SmartPayTransaction index")).
Proof.
  destruct stub as [l fs]. cbn [faults ledger]. repeat split.
  - intros Hlen. unfold Delete.
    destruct (len args =? 1) eqn:E; [apply Z.eqb_eq in E; contradiction|]. reflexivity.
  - intros name e rest -> ->. reflexivity.
  - intros name e rest -> ->. reflexivity.
Qed.

(** The index cannot be read: the record is gone, its index entry stays. *)
Lemma Delete_failure_cases_witness :
  Delete ["sp1"%string]
    (mkStub {["sp1"%string := "record"%string]} [None; Some "ledger unavailable"%string])
  = (mkStub (delete "sp1"%string {["sp1"%string := "record"%string]}) [],
     Error "Failed to get SmartPayTransaction index").
Proof.
  exact (proj2 (proj2 (Delete_failure_cases ["sp1"%string]
                         (mkStub {["sp1"%string := "record"%string]}
                            [None; Some "ledger unavailable"%string])))
           "sp1"%string "ledger unavailable"%string [] eq_refl eq_refl).
Defined.

(** The loop of [Delete] on an index that holds the id takes out one
    element: the index is one shorter, the ids other than the deleted one
    are in it as before, and the deleted id is gone when the index held it
    once.  An id the index held twice (two creations of the same id leave
    it so) is still in it. *)
Theorem removeFromIndex_takes_one_out (index : list string) (name : string) :
  name ∈ index ->
  exists rest,
    removeFromIndex (Some index) name = Some rest
    /\ S (length rest) = length index
    /\ (forall x : string, x <> name -> x ∈ rest <-> x ∈ index)
    /\ (NoDup index -> name ∉ rest)
    /\ (forall i j : nat,
          i <> j -> index !! i = Some name -> index !! j = Some name -> name ∈ rest).
Proof.
  intros Hin. apply list_elem_of_split_l in Hin as (l1 & l2 & -> & Hnot).
  exists (l1 ++ l2). split.
  { cbn [removeFromIndex]. f_equal. apply (removeLoop_found [] l1 l2 name Hnot). }
  split. { rewrite !length_app. cbn [length]. lia. }
  split. { intros x Hx. rewrite !elem_of_app, elem_of_cons. intuition congruence. }
  split.
  - intros Hnd. apply NoDup_app in Hnd as (_ & _ & Hnd).
    apply NoDup_cons in Hnd as [Hl2 _].
    rewrite elem_of_app. intros [?|?]; contradiction.
  - intros i j Hij Hi Hj. apply elem_of_app. right.
    assert (Hother : forall p : nat,
               p <> length l1 -> (l1 ++ name :: l2) !! p = Some name -> name ∈ l2).
    { intros p Hp Hlk. destruct (decide (p < length l1)%nat) as [Hlt|Hge].
      - rewrite lookup_app_l in Hlk by exact Hlt.
        exfalso. apply Hnot. apply (list_elem_of_lookup_2 _ _ _ Hlk).
      - rewrite lookup_app_r in Hlk by lia.
        destruct (p - length l1)%nat as [|q] eqn:E; [lia|].
        cbn in Hlk. apply (list_elem_of_lookup_2 _ _ _ Hlk). }
    destruct (decide (i = length l1)) as [->|Hi'].
    + apply (Hother j); [congruence | exact Hj].
    + apply (Hother i); [exact Hi' | exact Hi].
Qed.

(** The index [a; b; a]. *)
Lemma removeFromIndex_takes_one_out_witness :
  exists rest,
    removeFromIndex (Some ["a"; "b"; "a"]%string) "a" = Some rest
    /\ S (length rest) = length ["a"; "b"; "a"]%string
    /\ (forall x : string, x <> "a"%string -> x ∈ rest <-> x ∈ ["a"; "b"; "a"]%string)
    /\ (NoDup ["a"; "b"; "a"]%string -> "a"%string ∉ rest)
    /\ (forall i j : nat,
          i <> j -> ["a"; "b"; "a"]%string !! i = Some "a"%string ->
          ["a"; "b"; "a"]%string !! j = Some "a"%string -> "a"%string ∈ rest).
Proof.
  apply (removeFromIndex_takes_one_out ["a"; "b"; "a"]%string "a"%string).
  apply elem_of_cons. left. reflexivity.
Defined.

(** ** The argument list of initSmartPay *)

(** [initSmartPay] looks at its first twenty arguments only: what follows
    them changes nothing. *)
Theorem initSmartPay_ignores_further_arguments `{GoLib} (args more : list string)
    (stub : ChaincodeStub) :
  len args = 20 ->
  SmartPay.initSmartPay (args ++ more) stub = SmartPay.initSmartPay args stub.
Proof.
  intros Hlen.
  do 20 (destruct args as [|? args]; [discriminate Hlen|]).
  destruct args as [|? args];
    [|exfalso; rewrite len_list in Hlen; cbn [length] in Hlen; lia].
  cbn [app]. unfold SmartPay.initSmartPay. rewrite len_20. len_args. tx. reflexivity.
Qed.

(** Twenty arguments and a twenty-first. *)
Lemma initSmartPay_ignores_further_arguments_witness :
  SmartPay.initSmartPay (H := evalLib)
    (["p1"; "alice"; "bob"; "35"; "usd"; "r1"; "src"; "usd"; "dst"; "eur"; "100"; "2";
      "l1"; "lender"; "borrower"; "1000"; "usd"; "5"; "2016-12-31"; "sp1"]%string
     ++ ["one more"%string]) (mkStub ∅ [])
  = SmartPay.initSmartPay (H := evalLib)
      ["p1"; "alice"; "bob"; "35"; "usd"; "r1"; "src"; "usd"; "dst"; "eur"; "100"; "2";
       "l1"; "lender"; "borrower"; "1000"; "usd"; "5"; "2016-12-31"; "sp1"]%string
      (mkStub ∅ []).
Proof.
  apply (initSmartPay_ignores_further_arguments (H := evalLib)). reflexivity.
Defined.

(** ** The position of an empty argument *)

Ltac first_empty Hfirst :=
  match goal with
  | E : (len ?a <=? 0) = true |- _ =>
      exfalso; destruct a; [|discriminate E];
      first [ exact (Hfirst 0%nat _ ltac:(lia) eq_refl eq_refl)
            | exact (Hfirst 1%nat _ ltac:(lia) eq_refl eq_refl)
            | exact (Hfirst 2%nat _ ltac:(lia) eq_refl eq_refl)
            | exact (Hfirst 3%nat _ ltac:(lia) eq_refl eq_refl)
            | exact (Hfirst 4%nat _ ltac:(lia) eq_refl eq_refl)
            | exact (Hfirst 5%nat _ ltac:(lia) eq_refl eq_refl)
            | exact (Hfirst 6%nat _ ltac:(lia) eq_refl eq_refl)
            | exact (Hfirst 7%nat _ ltac:(lia) eq_refl eq_refl)
            | exact (Hfirst 8%nat _ ltac:(lia) eq_refl eq_refl)
            | exact (Hfirst 9%nat _ ltac:(lia) eq_refl eq_refl)
            | exact (Hfirst 10%nat _ ltac:(lia) eq_refl eq_refl)
            | exact (Hfirst 11%nat _ ltac:(lia) eq_refl eq_refl)
            | exact (Hfirst 12%nat _ ltac:(lia) eq_refl eq_refl)
            | exact (Hfirst 13%nat _ ltac:(lia) eq_refl eq_refl)
            | exact (Hfirst 14%nat _ ltac:(lia) eq_refl eq_refl)
            | exact (Hfirst 15%nat _ ltac:(lia) eq_refl eq_refl)
            | exact (Hfirst 16%nat _ ltac:(lia) eq_refl eq_refl)
            | exact (Hfirst 17%nat _ ltac:(lia) eq_refl eq_refl)
            | exact (Hfirst 18%nat _ ltac:(lia) eq_refl eq_refl) ]
  end.

Ltac parses_before Hparse :=
  match goal with
  | E : ParseFloat ?a = None |- _ =>
      exfalso;
      let x := fresh "x" in
      let HS := fresh "HS" in
      first [ destruct (Hparse 3%nat a ltac:(set_solver) ltac:(lia) eq_refl) as [x HS]
            | destruct (Hparse 10%nat a ltac:(set_solver) ltac:(lia) eq_refl) as [x HS]
            | destruct (Hparse 11%nat a ltac:(set_solver) ltac:(lia) eq_refl) as [x HS]
            | destruct (Hparse 15%nat a ltac:(set_solver) ltac:(lia) eq_refl) as [x HS]
            | destruct (Hparse 17%nat a ltac:(set_solver) ltac:(lia) eq_refl) as [x HS] ];
      rewrite HS in E; discriminate E
  end.

(** The error for an empty argument names its position, counted from 1.
    [i] is the index of the first empty argument; [initSmartPay] parses a
    number before it looks at the arguments of the next group, so the
    numbers before [i] are taken to parse. *)
Theorem empty_argument_names_its_position `{GoLib} (args : list string) (i : nat)
    (stub : ChaincodeStub) :
  args !! i = Some EmptyString ->
  (forall (j : nat) a, (j < i)%nat -> args !! j = Some a -> a = EmptyString -> False) ->
  (len args = 5 ->
   exists e, Payment.initPayment args stub = (stub, Error e)
             /\ namedPosition e = Some (Z.of_nat i + 1))
  /\ (20 <= len args -> (i < 20)%nat ->
      (forall (j : nat) a, j ∈ [3; 10; 11; 15; 17]%nat -> (j < i)%nat ->
                           args !! j = Some a -> is_Some (ParseFloat a)) ->
      exists e, SmartPay.initSmartPay args stub = (stub, Error e)
                /\ namedPosition e = Some (Z.of_nat i + 1)).
Proof.
  intros Hi Hfirst. split.
  - intros Hlen. unfold Payment.initPayment.
    do 5 (destruct args as [|? args]; [discriminate Hlen|]).
    destruct args as [|? args];
      [|exfalso; rewrite len_list in Hlen; cbn [length] in Hlen; lia].
    len_args. tx.
    do 5 (destruct i as [|i];
          [ injection Hi as ->;
            repeat (tx_case;
                    try solve [eexists; split; reflexivity | passed_check
                              | first_empty Hfirst])
          |]).
    discriminate Hi.
  - intros Hlen Hlt Hparse. unfold SmartPay.initSmartPay.
    do 20 (destruct args as [|? args]; [exfalso; vm_compute in Hlen; congruence|]).
    rewrite len_20. tx.
    do 20 (destruct i as [|i];
           [ injection Hi as ->;
             repeat (tx_case;
                     try solve [eexists; split; reflexivity | passed_check
                               | first_empty Hfirst | parses_before Hparse])
           |]).
    lia.
Qed.

(** The example of the spec: an empty fifth argument, named as the fifth. *)
Lemma empty_argument_names_its_position_witness :
  exists e,
    Payment.initPayment (H := evalLib) ["tx1"; "alice"; "bob"; "35"; ""]%string (mkStub ∅ [])
    = (mkStub ∅ [], Error e)
    /\ namedPosition e = Some (Z.of_nat 4 + 1).
Proof.
  apply (proj1 (empty_argument_names_its_position (H := evalLib)
                  ["tx1"; "alice"; "bob"; "35"; ""]%string 4 (mkStub ∅ []) eq_refl
                  ltac:(intros j a Hj Ha ->;
                        do 4 (destruct j as [|j]; [discriminate Ha|]); lia))).
  reflexivity.
Defined.

(** ** The create operations, checks passed *)

Ltac not_empty Hne :=
  match goal with
  | E : (len ?a <=? 0) = true |- _ =>
      exfalso; destruct a; [|discriminate E]; apply Hne; set_solver
  end.

(** Arguments that spell a record and hold no empty string pass the checks
    of [initPayment]: what is left is its store part, whatever the stub. *)
Lemma initPayment_checked `{GoLib} (args : list string) (r : Payment.PaymentTransaction)
    (stub : ChaincodeStub) :
  paymentOf args = Some r -> EmptyString ∉ args ->
  Payment.initPayment args stub = storePayment r stub.
Proof.
  intros Hr Hne. unfold paymentOf in Hr.
  do 5 (destruct args as [|? args]; [discriminate Hr|]).
  destruct args as [|? args]; [|discriminate Hr].
  unfold Payment.initPayment, storePayment. len_args. tx.
  repeat (tx_case; try solve [not_empty Hne | discriminate Hr]).
  injection Hr as <-. reflexivity.
Qed.

Lemma initSmartPay_checked `{GoLib} (args : list string) (s : SmartPay.SmartPayTransaction)
    (stub : ChaincodeStub) :
  smartPayOf args = Some s -> EmptyString ∉ take 20 args ->
  SmartPay.initSmartPay args stub = storeSmartPay s stub.
Proof.
  intros Hs Hne. unfold smartPayOf in Hs.
  do 20 (destruct args as [|? args]; [discriminate Hs|]).
  cbn [take] in Hne.
  unfold SmartPay.initSmartPay, storeSmartPay. rewrite len_20. tx.
  repeat (tx_case;
          try solve [ not_empty Hne
                    | match goal with
                      | E : ParseFloat _ = None |- _ =>
                          repeat match goal with
                                 | E' : ParseFloat _ = _ |- _ => rewrite E' in Hs; clear E'
                                 end;
                          discriminate Hs
                      end ]).
  repeat match goal with E : ParseFloat _ = Some _ |- _ => rewrite E in Hs; clear E end.
  injection Hs as <-. reflexivity.
Qed.

(** The existence check of the store parts. *)
Ltac tx_exists :=
  match goal with
  | |- context [if String.eqb ?a ?b then _ else _] =>
      let E := fresh "E" in destruct (String.eqb a b) eqn:E
  end; tx.

(** An argument list that does not pass the checks of [initPayment] leaves
    the stub as it was and ends in an error. *)
Lemma initPayment_unchecked `{GoLib} (args : list string) (stub : ChaincodeStub) :
  paymentOf args = None \/ EmptyString ∈ args ->
  exists e, Payment.initPayment args stub = (stub, Error e).
Proof.
  intros Hbad. unfold Payment.initPayment.
  do 5 (destruct args as [|? args]; [len_args; tx; eexists; reflexivity|]).
  destruct args as [|? args]; [|rewrite len_not_5; tx; eexists; reflexivity].
  len_args. tx. repeat (tx_case; try solve [eexists; reflexivity]).
  exfalso. destruct Hbad as [Hr|Hin].
  - cbn [paymentOf] in Hr. rewrite E4 in Hr. discriminate Hr.
  - elem_cases Hin; passed_check.
Qed.

(** The same for [initSmartPay], where a list of 15 to 19 arguments may end
    in a panic. *)
Lemma initSmartPay_unchecked `{GoLib} (args : list string) (stub : ChaincodeStub) :
  smartPayOf args = None \/ EmptyString ∈ take 20 args ->
  fst (SmartPay.initSmartPay args stub) = stub
  /\ (forall a, snd (SmartPay.initSmartPay args stub) <> Return a)
  /\ (panicked (snd (SmartPay.initSmartPay args stub)) = true -> 15 <= len args < 20).
Proof.
  intros Hbad. unfold SmartPay.initSmartPay.
  do 15 (destruct args as [|? args];
         [len_args; tx; split; [reflexivity|split; [discriminate|discriminate]]|]).
  do 5 (destruct args as [|? args];
        [ len_args; tx;
          repeat (tx_case;
                  try solve [split; [reflexivity|split; [discriminate|discriminate]]]);
          split; [reflexivity|split; [discriminate|]]; intros _; vm_compute;
          split; congruence
        |]).
  rewrite len_20. tx.
  repeat (tx_case; try solve [split; [reflexivity|split; [discriminate|discriminate]]]).
  exfalso. destruct Hbad as [Hs|Hin].
  - cbn [smartPayOf] in Hs.
    repeat match goal with E : ParseFloat _ = Some _ |- _ => rewrite E in Hs; clear E end.
    discriminate Hs.
  - cbn [take] in Hin. elem_cases Hin; passed_check.
Qed.

(** ** The existence check and the record a create stores *)

(** Lookups in a ledger after inserts and deletes. *)
Ltac map_lookup :=
  repeat first
    [ rewrite lookup_insert_eq
    | rewrite lookup_delete_eq
    | rewrite lookup_insert_ne by congruence
    | rewrite lookup_delete_ne by congruence ].

(** A create operation whose arguments pass the checks, on a ledger that
    holds under the id bytes that decode to a record of that id, ends in the
    already-exists error with the stub as it was.  (A record put there by
    [Write] as well-formed JSON is one; the records the create operations
    store by hand do not decode.) *)
Theorem stored_record_blocks_create `{GoLib} (args : list string)
    (l : gmap string string) :
  (forall r : Payment.PaymentTransaction,
      paymentOf args = Some r -> EmptyString ∉ args ->
      Payment.TransactionID (Payment.UnmarshalPayment (stored l (Payment.TransactionID r)))
      = Payment.TransactionID r ->
      Payment.initPayment args (mkStub l [])
      = (mkStub l [], Error "This PaymentTranaction arleady exists"))
  /\ (forall s : SmartPay.SmartPayTransaction,
        smartPayOf args = Some s -> EmptyString ∉ take 20 args ->
        SmartPay.SmartPayTransID
          (SmartPay.UnmarshalSmartPay (stored l (SmartPay.SmartPayTransID s)))
        = SmartPay.SmartPayTransID s ->
        SmartPay.initSmartPay args (mkStub l [])
        = (mkStub l [], Error "This smartPay Tranaction arleady exists")).
Proof.
  split.
  - intros r Hr Hne Hid. rewrite (initPayment_checked args r _ Hr Hne).
    unfold storePayment. tx. fold (stored l (Payment.TransactionID r)).
    rewrite Hid, String.eqb_refl. reflexivity.
  - intros s Hs Hne Hid. rewrite (initSmartPay_checked args s _ Hs Hne).
    unfold storeSmartPay. tx. fold (stored l (SmartPay.SmartPayTransID s)).
    rewrite Hid, String.eqb_refl. reflexivity.
Qed.

(** A payment [tx1] on a ledger where [tx1] holds a well-formed record. *)
Lemma stored_record_blocks_create_witness :
  Payment.initPayment (H := evalLib) ["tx1"; "alice"; "bob"; "35"; "usd"]%string
    (mkStub {["tx1"%string := raw "{'transactionID': 'tx1', 'amount': 7}"]} [])
  = (mkStub {["tx1"%string := raw "{'transactionID': 'tx1', 'amount': 7}"]} [],
     Error "This PaymentTranaction arleady exists").
Proof.
  apply (proj1 (stored_record_blocks_create (H := evalLib)
                  ["tx1"; "alice"; "bob"; "35"; "usd"]%string
                  {["tx1"%string := raw "{'transactionID': 'tx1', 'amount': 7}"]})
           (Payment.mkPayment "tx1" "alice" "bob" 35 "usd")).
  - reflexivity.
  - intros Hin. repeat (apply elem_of_cons in Hin as [Hin|Hin]; [discriminate Hin|]).
    apply elem_of_nil in Hin. exact Hin.
  - reflexivity.
Defined.

(** A create operation whose arguments pass the checks, on a ledger that
    holds nothing under the id, the store not failing: it returns no error,
    a [read] of the id returns the string built for the record, and the
    index of the kind is the index that was there with the id appended. *)
Theorem create_then_read `{GoLib} (args : list string) (l : gmap string string) :
  (forall r : Payment.PaymentTransaction,
      paymentOf args = Some r -> EmptyString ∉ args ->
      l !! Payment.TransactionID r = None ->
      Payment.TransactionID r <> paymentIndexStr ->
      exists stub',
        Payment.initPayment args (mkStub l []) = (stub', Return nilBytes)
        /\ read [Payment.TransactionID r] stub' = (stub', Return (Payment.str r))
        /\ stored (ledger stub') paymentIndexStr
           = JSON.MarshalStrings
               (append (JSON.UnmarshalStrings (stored l paymentIndexStr))
                  (Payment.TransactionID r)))
  /\ (forall s : SmartPay.SmartPayTransaction,
        smartPayOf args = Some s -> EmptyString ∉ take 20 args ->
        l !! SmartPay.SmartPayTransID s = None ->
        SmartPay.SmartPayTransID s <> EmptyString ->
        SmartPay.SmartPayTransID s <> smartPayIndexStr ->
        exists stub',
          SmartPay.initSmartPay args (mkStub l []) = (stub', Return nilBytes)
          /\ read [SmartPay.SmartPayTransID s] stub' = (stub', Return (SmartPay.strSmPay s))
          /\ stored (ledger stub') smartPayIndexStr
             = JSON.MarshalStrings
                 (append (JSON.UnmarshalStrings (stored l smartPayIndexStr))
                    (SmartPay.SmartPayTransID s))).
Proof.
  split.
  - intros r Hr Hne Hl Hp. rewrite (initPayment_checked args r _ Hr Hne).
    assert (Hid : Payment.TransactionID r <> EmptyString).
    { intros He. apply Hne. unfold paymentOf in Hr.
      do 5 (destruct args as [|? args]; [discriminate Hr|]).
      destruct args; [|discriminate Hr]. destruct (Atoi _); [|discriminate Hr].
      injection Hr as <-. cbn in He. subst. left. }
    unfold storePayment. tx. rewrite Hl. cbn [default].
    change (Payment.UnmarshalPayment EmptyString) with Payment.zeroPayment.
    cbn [Payment.zeroPayment Payment.TransactionID].
    rewrite (eqb_false _ _ (not_eq_sym Hid)). tx.
    eexists. split; [reflexivity|].
    unfold read. change (len [Payment.TransactionID r] =? 1) with true. tx.
    cbn [ledger]. unfold stored.
    split; map_lookup; reflexivity.
  - intros s Hs Hne Hl Hid Hp. rewrite (initSmartPay_checked args s _ Hs Hne).
    unfold storeSmartPay. tx. rewrite Hl. cbn [default].
    change (SmartPay.UnmarshalSmartPay EmptyString) with SmartPay.zeroSmartPay.
    cbn [SmartPay.zeroSmartPay SmartPay.SmartPayTransID].
    rewrite (eqb_false _ _ (not_eq_sym Hid)). tx.
    eexists. split; [reflexivity|].
    unfold read. change (len [SmartPay.SmartPayTransID s] =? 1) with true. tx.
    cbn [ledger]. unfold stored.
    split; map_lookup; reflexivity.
Qed.

(** The payment [tx1] on an empty ledger. *)
Lemma create_then_read_witness :
  exists stub',
    Payment.initPayment (H := evalLib) ["tx1"; "Alice"; "Bob"; "35"; "USD"]%string
      (mkStub ∅ [])
    = (stub', Return nilBytes)
    /\ read ["tx1"%string] stub'
       = (stub', Return (Payment.str (Payment.mkPayment "tx1" "alice" "bob" 35 "usd")))
    /\ stored (ledger stub') paymentIndexStr
       = JSON.MarshalStrings
           (append (JSON.UnmarshalStrings (stored ∅ paymentIndexStr)) "tx1").
Proof.
  apply (proj1 (create_then_read (H := evalLib)
                  ["tx1"; "Alice"; "Bob"; "35"; "USD"]%string ∅)
           (Payment.mkPayment "tx1" "alice" "bob" 35 "usd")).
  - reflexivity.
  - intros Hin. repeat (apply elem_of_cons in Hin as [Hin|Hin]; [discriminate Hin|]).
    apply elem_of_nil in Hin. exact Hin.
  - reflexivity.
  - discriminate.
Defined.

(** ** Store failures in a create operation *)

(** How a failure of the store ends [initPayment], its arguments having
    passed the checks and the id being new.  The first [GetState] failing:
    an error of its own, nothing written.  The [PutState] of the record
    failing: the error of the store, nothing written.  The [GetState] of the
    index failing: an error of its own, and the record is stored without an
    entry in the index. *)
Theorem initPayment_store_failures `{GoLib} (args : list string)
    (r : Payment.PaymentTransaction) (l : gmap string string) (e : error)
    (rest : list (option error)) :
  paymentOf args = Some r -> EmptyString ∉ args ->
  Payment.TransactionID (Payment.UnmarshalPayment (stored l (Payment.TransactionID r)))
  <> Payment.TransactionID r ->
  Payment.initPayment args (mkStub l (Some e :: rest))
  = (mkStub l rest, Error "Failed to get Transaction name")
  /\ Payment.initPayment args (mkStub l (None :: Some e :: rest))
     = (mkStub l rest, Error e)
  /\ Payment.initPayment args (mkStub l (None :: None :: Some e :: rest))
     = (mkStub (<[Payment.TransactionID r := Payment.str r]> l) rest,
        Error "Failed to get marble index").
Proof.
  intros Hr Hne Hnew. rewrite !(initPayment_checked args r _ Hr Hne).
  unfold storePayment. tx. fold (stored l (Payment.TransactionID r)).
  rewrite (eqb_false _ _ Hnew). tx. repeat split.
Qed.

(** The same for [initSmartPay]. *)
Theorem initSmartPay_store_failures `{GoLib} (args : list string)
    (s : SmartPay.SmartPayTransaction) (l : gmap string string) (e : error)
    (rest : list (option error)) :
  smartPayOf args = Some s -> EmptyString ∉ take 20 args ->
  SmartPay.SmartPayTransID
    (SmartPay.UnmarshalSmartPay (stored l (SmartPay.SmartPayTransID s)))
  <> SmartPay.SmartPayTransID s ->
  SmartPay.initSmartPay args (mkStub l (Some e :: rest))
  = (mkStub l rest, Error "Failed to get Transaction name")
  /\ SmartPay.initSmartPay args (mkStub l (None :: Some e :: rest))
     = (mkStub l rest, Error e)
  /\ SmartPay.initSmartPay args (mkStub l (None :: None :: Some e :: rest))
     = (mkStub (<[SmartPay.SmartPayTransID s := SmartPay.strSmPay s]> l) rest,
        Error "Failed to get marble index")
  /\ SmartPay.initSmartPay args (mkStub l (None :: None :: None :: Some e :: rest))
     = (mkStub (<[SmartPay.SmartPayTransID s := SmartPay.strSmPay s]> l) rest,
        Return nilBytes).
Proof.
  intros Hs Hne Hnew. rewrite !(initSmartPay_checked args s _ Hs Hne).
  unfold storeSmartPay. tx. fold (stored l (SmartPay.SmartPayTransID s)).
  rewrite (eqb_false _ _ Hnew). tx. repeat split.
Qed.

(** The payment [tx1]: the index cannot be read, the record stays. *)
Lemma initPayment_store_failures_witness :
  Payment.initPayment (H := evalLib) ["tx1"; "alice"; "bob"; "35"; "usd"]%string
    (mkStub ∅ [None; None; Some "ledger unavailable"%string])
  = (mkStub (<["tx1"%string :=
                Payment.str (Payment.mkPayment "tx1" "alice" "bob" 35 "usd")]> ∅) [],
     Error "Failed to get marble index").
Proof.
  apply (proj2 (proj2 (initPayment_store_failures (H := evalLib)
                         ["tx1"; "alice"; "bob"; "35"; "usd"]%string
                         (Payment.mkPayment "tx1" "alice" "bob" 35 "usd") ∅
                         "ledger unavailable" [] eq_refl
                         ltac:(intros Hin;
                               repeat (apply elem_of_cons in Hin as [Hin|Hin];
                                       [discriminate Hin|]);
                               apply elem_of_nil in Hin; exact Hin)
                         ltac:(discriminate)))).
Defined.

Section SmartPayRun.
#[local] Existing Instance evalLib.

(** The transaction [sp1]: the record cannot be written. *)
Lemma initSmartPay_store_failures_witness :
  SmartPay.initSmartPay
    ["p1"; "alice"; "bob"; "35"; "usd"; "r1"; "src"; "usd"; "dst"; "eur"; "100"; "2";
     "l1"; "lender"; "borrower"; "1000"; "usd"; "5"; "2016-12-31"; "sp1"]%string
    (mkStub ∅ [None; Some "ledger unavailable"%string])
  = (mkStub ∅ [], Error "ledger unavailable").
Proof.
  apply (proj1 (proj2 (initSmartPay_store_failures (H := evalLib)
                         ["p1"; "alice"; "bob"; "35"; "usd"; "r1"; "src"; "usd"; "dst";
                          "eur"; "100"; "2"; "l1"; "lender"; "borrower"; "1000"; "usd";
                          "5"; "2016-12-31"; "sp1"]%string
                         (SmartPay.mkSmartPay (H := evalLib) "sp1"
                            (SmartPay.mkPayment (H := evalLib) "p1" "alice" "bob" 35 "usd")
                            (SmartPay.mkRemittance (H := evalLib)
                               "r1" "src" "usd" "dst" "eur" 100 2)
                            (SmartPay.mkLending (H := evalLib)
                               "l1" "lender" "borrower" 1000 "usd" 5 "2016-12-31"))
                         ∅ "ledger unavailable" [] eq_refl
                         ltac:(intros Hin;
                               repeat (apply elem_of_cons in Hin as [Hin|Hin];
                                       [discriminate Hin|]);
                               apply elem_of_nil in Hin; exact Hin)
                         ltac:(discriminate)))).
Defined.

End SmartPayRun.

(** ** What the operations leave alone *)

Lemma len_is_1 (args : list string) : (len args =? 1) = true -> exists a, args = [a].
Proof.
  intros E. apply Z.eqb_eq in E. rewrite len_list in E.
  destruct args as [|a [|? ?]]; cbn [length] in E; try lia. exists a. reflexivity.
Qed.

Lemma len_is_2 (args : list string) : (len args =? 2) = true -> exists a b, args = [a; b].
Proof.
  intros E. apply Z.eqb_eq in E. rewrite len_list in E.
  destruct args as [|a [|b [|? ?]]]; cbn [length] in E; try lia. exists a, b. reflexivity.
Qed.

(** A key outside a list of keys is none of them. *)
Ltac other_key Hk :=
  intros <-; apply Hk; rewrite ?elem_of_app, ?elem_of_cons; tauto.

Ltac frame_done :=
  let k := fresh "k" in
  let Hk := fresh "Hk" in
  intros k Hk; cbn [ledger fst];
  repeat first [ rewrite lookup_insert_ne by other_key Hk
               | rewrite lookup_delete_ne by other_key Hk ];
  reflexivity.

(** The keys an operation may change, whatever its arguments and the
    failures of the store: [Write], [JsonWrite] and [NewEcrire] the key they
    are given; [Delete] the key it is given and the SmartPay index; [Init]
    the counter [abc] and the two indices. *)
Theorem raw_operations_footprint `{GoLib} (function : string) (args : list string)
    (stub : ChaincodeStub) :
  unchangedOutside (take 1 args) stub (fst (Write args stub))
  /\ unchangedOutside (take 1 args) stub (fst (SmartPay.JsonWrite args stub))
  /\ unchangedOutside (take 1 args) stub (fst (Payment.NewEcrire args stub))
  /\ unchangedOutside (take 1 args ++ [smartPayIndexStr]) stub (fst (Delete args stub))
  /\ unchangedOutside ["abc"%string; smartPayIndexStr; paymentIndexStr] stub
       (fst (Init function args stub)).
Proof.
  destruct stub as [l fs].
  repeat split.
  - unfold Write. destruct (len args =? 2) eqn:E; [|frame_done].
    apply len_is_2 in E as (a & b & ->). tx. cbn [take].
    repeat (tx_fault; try frame_done).
  - unfold SmartPay.JsonWrite. destruct (len args =? 2) eqn:E; [|frame_done].
    apply len_is_2 in E as (a & b & ->). tx. cbn [take].
    repeat (tx_fault; try frame_done).
  - unfold Payment.NewEcrire. destruct (len args =? 2) eqn:E; [|frame_done].
    apply len_is_2 in E as (a & b & ->). tx. cbn [take].
    repeat (tx_fault; try frame_done).
  - unfold Delete. destruct (len args =? 1) eqn:E; [|frame_done].
    apply len_is_1 in E as (a & ->). tx. cbn [take app].
    repeat (tx_fault; try frame_done).
  - unfold Init. destruct (len args =? 1) eqn:E; [|frame_done].
    apply len_is_1 in E as (a & ->). tx.
    destruct (Atoi a); tx; [|frame_done].
    repeat (tx_fault; try frame_done).
Qed.

(** The keys a create operation may change, whatever its arguments and the
    failures of the store: the id of the record, which is the first argument
    of [initPayment] as it is given and the twentieth of [initSmartPay] in
    lower case, and the index of the kind. *)
Theorem create_operations_footprint `{GoLib} (args : list string)
    (stub : ChaincodeStub) :
  unchangedOutside (take 1 args ++ [paymentIndexStr]) stub
    (fst (Payment.initPayment args stub))
  /\ unchangedOutside ((ToLower <$> take 1 (drop 19 args)) ++ [smartPayIndexStr]) stub
       (fst (SmartPay.initSmartPay args stub)).
Proof.
  split.
  - destruct (paymentOf args) as [r|] eqn:Hr;
      [destruct (decide (EmptyString ∈ args)) as [Hin|Hne]|].
    + destruct (initPayment_unchecked args stub (or_intror Hin)) as [e ->]. frame_done.
    + rewrite (initPayment_checked args r _ Hr Hne).
      assert (Hid : take 1 args = [Payment.TransactionID r]).
      { unfold paymentOf in Hr.
        do 5 (destruct args as [|? args]; [discriminate Hr|]).
        destruct args; [|discriminate Hr]. destruct (Atoi _); [|discriminate Hr].
        injection Hr as <-. reflexivity. }
      rewrite Hid. cbn [app]. destruct stub as [l fs]. unfold storePayment. tx.
      repeat (first [tx_fault | tx_exists]; try frame_done).
    + destruct (initPayment_unchecked args stub (or_introl Hr)) as [e ->]. frame_done.
  - destruct (smartPayOf args) as [s|] eqn:Hs;
      [destruct (decide (EmptyString ∈ take 20 args)) as [Hin|Hne]|].
    + destruct (initSmartPay_unchecked args stub (or_intror Hin)) as [-> _]. frame_done.
    + rewrite (initSmartPay_checked args s _ Hs Hne).
      assert (Hid : ToLower <$> take 1 (drop 19 args) = [SmartPay.SmartPayTransID s]).
      { unfold smartPayOf in Hs.
        do 20 (destruct args as [|? args]; [discriminate Hs|]).
        repeat (destruct (ParseFloat _); [|discriminate Hs]).
        injection Hs as <-. reflexivity. }
      rewrite Hid. cbn [app]. destruct stub as [l fs]. unfold storeSmartPay. tx.
      repeat (first [tx_fault | tx_exists]; try frame_done).
    + destruct (initSmartPay_unchecked args stub (or_introl Hs)) as [-> _]. frame_done.
Qed.

(** ** Panics *)

(** The chaincode of the second file never panics: whatever the function
    name, the arguments and the failures of the store, [Invoke] and [Query]
    end in a value or in an error.  In the first file [Invoke] panics on one
    input only, [initSmartPay] with 15 to 19 arguments. *)
Theorem panics_only_in_initSmartPay `{GoLib} (function : string) (args : list string)
    (stub : ChaincodeStub) :
  panicked (snd (Payment.Invoke function args stub)) = false
  /\ panicked (snd (Query function args stub)) = false
  /\ (panicked (snd (SmartPay.Invoke function args stub)) = true ->
      function = "initSmartPay"%string /\ 15 <= len args < 20).
Proof.
  assert (HInit : panicked (snd (Init "init" args stub)) = false).
  { unfold Init. destruct (len args =? 1) eqn:E; [|reflexivity].
    apply len_is_1 in E as (a & ->). tx. destruct (Atoi a); tx; [|reflexivity].
    destruct stub as [l fs]. tx. repeat (tx_fault; try reflexivity). }
  assert (HDelete : panicked (snd (Delete args stub)) = false).
  { unfold Delete. destruct (len args =? 1) eqn:E; [|reflexivity].
    apply len_is_1 in E as (a & ->). tx.
    destruct stub as [l fs]. tx. repeat (tx_fault; try reflexivity). }
  assert (HWrite : panicked (snd (Write args stub)) = false).
  { unfold Write. destruct (len args =? 2) eqn:E; [|reflexivity].
    apply len_is_2 in E as (a & b & ->). tx.
    destruct stub as [l fs]. tx. repeat (tx_fault; try reflexivity). }
  assert (HNew : panicked (snd (Payment.NewEcrire args stub)) = false).
  { unfold Payment.NewEcrire. destruct (len args =? 2) eqn:E; [|reflexivity].
    apply len_is_2 in E as (a & b & ->). tx.
    destruct stub as [l fs]. tx. repeat (tx_fault; try reflexivity). }
  assert (HJson : panicked (snd (SmartPay.JsonWrite args stub)) = false).
  { unfold SmartPay.JsonWrite. destruct (len args =? 2) eqn:E; [|reflexivity].
    apply len_is_2 in E as (a & b & ->). tx.
    destruct stub as [l fs]. tx. repeat (tx_fault; try reflexivity). }
  assert (Hread : panicked (snd (read args stub)) = false).
  { unfold read. destruct (len args =? 1) eqn:E; [|reflexivity].
    apply len_is_1 in E as (a & ->). tx.
    destruct stub as [l fs]. tx. repeat (tx_fault; try reflexivity). }
  assert (HPayment : panicked (snd (Payment.initPayment args stub)) = false).
  { destruct (paymentOf args) as [r|] eqn:Hr;
      [destruct (decide (EmptyString ∈ args)) as [Hin|Hne]|].
    - destruct (initPayment_unchecked args stub (or_intror Hin)) as [e ->]. reflexivity.
    - rewrite (initPayment_checked args r _ Hr Hne).
      destruct stub as [l fs]. unfold storePayment. tx.
      repeat (first [tx_fault | tx_exists]; try reflexivity).
    - destruct (initPayment_unchecked args stub (or_introl Hr)) as [e ->]. reflexivity. }
  assert (HSmartPay : panicked (snd (SmartPay.initSmartPay args stub)) = true ->
                      15 <= len args < 20).
  { destruct (smartPayOf args) as [s|] eqn:Hs;
      [destruct (decide (EmptyString ∈ take 20 args)) as [Hin|Hne]|].
    - apply (initSmartPay_unchecked args stub (or_intror Hin)).
    - rewrite (initSmartPay_checked args s _ Hs Hne).
      destruct stub as [l fs]. unfold storeSmartPay. tx.
      repeat (first [tx_fault | tx_exists]; try discriminate).
    - apply (initSmartPay_unchecked args stub (or_introl Hs)). }
  split; [|split].
  - unfold Payment.Invoke.
    repeat (destruct (String.eqb function _); [assumption|]). reflexivity.
  - unfold Query. destruct (String.eqb function _); [assumption | reflexivity].
  - intros Hp. unfold SmartPay.Invoke in Hp.
    destruct (String.eqb function "init"); [congruence|].
    destruct (String.eqb function "delete"); [congruence|].
    destruct (String.eqb function "write"); [congruence|].
    destruct (String.eqb_spec function "initSmartPay") as [->|_].
    + split; [reflexivity | apply HSmartPay; exact Hp].
    + destruct (String.eqb function "jsonWrite"); [congruence | discriminate Hp].
Qed.

(** [initSmartPay] with fifteen arguments is the panic. *)
Lemma panics_only_in_initSmartPay_witness :
  "initSmartPay"%string = "initSmartPay"%string
  /\ 15 <= len ["p1"; "alice"; "bob"; "35"; "usd"; "r1"; "src"; "usd"; "dst"; "eur"; "100";
               "2"; "l1"; "lender"; "borrower"]%string < 20.
Proof.
  apply (proj2 (proj2 (panics_only_in_initSmartPay (H := evalLib) "initSmartPay"
                         ["p1"; "alice"; "bob"; "35"; "usd"; "r1"; "src"; "usd"; "dst";
                          "eur"; "100"; "2"; "l1"; "lender"; "borrower"]%string
                         (mkStub ∅ [])))).
  reflexivity.
Defined.
